(** * cshatag-md5: the per-file integrity check of [check.go]

  A shallow embedding of [check.go] (stored and actual attributes, the
  timestamp text codec, the filename checksum extractor and [checkFile])
  together with the properties the specification states about them.

  Conventions.
  - A Go [string] is a [string]; a Go [[]byte] is a [list byte]; the
    conversions [[]byte(s)] and [string(b)] are [list_byte_of_string] and
    [string_of_list_byte].
  - [uint64] and [uint32] values are [Z] with the wrap-around written out.
  - Go's multiple results [(attr, err)] are tuples; [err == nil] is [None].
  - The operating system (extended attributes, [Stat], reading the content,
    the two helpers [storeAttr] and [removeAttr] that live outside
    [check.go]) is an oracle carried by the [File] record; everything
    [checkFile] does to the outside world is appended to a log. *)

From Stdlib Require Import ZArith List String Ascii Bool Lia.
From Stdlib Require Import Strings.Byte.
Import ListNotations.

Local Open Scope string_scope.
Local Open Scope list_scope.
Local Open Scope Z_scope.

(** ** Machine integers *)

Definition maxUint64 : Z := 2 ^ 64 - 1.
Definition wrap64 (z : Z) : Z := z mod 2 ^ 64.
Definition wrap32 (z : Z) : Z := z mod 2 ^ 32.

Definition is_uint64 (z : Z) : Prop := 0 <= z < 2 ^ 64.
Definition is_uint32 (z : Z) : Prop := 0 <= z < 2 ^ 32.

(** The code point of a byte of a string. *)
Definition code (c : ascii) : Z := Z.of_N (N_of_ascii c).

Definition byte_in (lo hi : ascii) (c : ascii) : bool :=
(code lo <=? code c) && (code c <=? code hi).

(** ** The Go library functions [check.go] calls *)

(** [bytes.Equal] and the builtin [copy]. *)
Module bytes.

Fixpoint Equal (a b : list byte) : bool :=
  match a, b with
  | [], [] => true
  | x :: a', y :: b' => Byte.eqb x y && Equal a' b'
  | _, _ => false
  end.

(** [copy(dst, src)] overwrites the first [min(len(dst), len(src))]
    elements of [dst] and leaves its length unchanged. *)
Definition copy (dst src : list byte) : list byte :=
  let n := Nat.min (List.length dst) (List.length src) in
  firstn n src ++ skipn n dst.

End bytes.

(** [strings.SplitN] for a one-byte separator. *)
Module strings.

(** The text before and after the first occurrence of [sep]. *)
Fixpoint Cut (str : string) (sep : ascii) : option (string * string) :=
  match str with
  | EmptyString => None
  | String c str' =>
      if Ascii.eqb c sep then Some (EmptyString, str')
      else match Cut str' sep with
           | Some (a, b) => Some (String c a, b)
           | None => None
           end
  end.

(** [SplitN(str, sep, n)] for [n >= 0]: at most [n] pieces, the last one
    the unsplit remainder. *)
Fixpoint SplitN (str : string) (sep : ascii) (n : nat) : list string :=
  match n with
  | O => []
  | S O => [str]
  | S n' =>
      match Cut str sep with
      | Some (a, rest) => a :: SplitN rest sep n'
      | None => [str]
      end
  end.

End strings.

(** [strconv.ParseUint(str, base, bitSize)] for [2 <= base <= 36] and
    [1 <= bitSize <= 64], after the loop of the Go library: a byte that is
    not a digit of the base is a syntax error with value 0; a value that
    does not fit is a range error with value [maxVal], returned at the
    digit where the overflow shows. *)
Module strconv.

Inductive NumError := ErrSyntax | ErrRange.

(** [lower(c)] is [c | ('x' - 'X')]. *)
Definition lower (c : Z) : Z := Z.lor c 32.

Definition digit_of (c : Z) : option Z :=
  if (48 <=? c) && (c <=? 57) then Some (c - 48)
  else if (97 <=? lower c) && (lower c <=? 122) then Some (lower c - 97 + 10)
  else None.

Fixpoint ParseUint_loop (base maxVal cutoff n : Z) (str : string)
  : Z * option NumError :=
  match str with
  | EmptyString => (n, None)
  | String ch str' =>
      match digit_of (code ch) with
      | None => (0, Some ErrSyntax)
      | Some d =>
          if d >=? base then (0, Some ErrSyntax)
          else if n >=? cutoff then (maxVal, Some ErrRange)
          else
            let n' := wrap64 (n * base) in
            let n1 := wrap64 (n' + d) in
            if (n1 <? n') || (n1 >? maxVal) then (maxVal, Some ErrRange)
            else ParseUint_loop base maxVal cutoff n1 str'
      end
  end.

Definition ParseUint (str : string) (base bitSize : Z) : Z * option NumError :=
  if String.eqb str "" then (0, Some ErrSyntax)
  else
    let cutoff := maxUint64 / base + 1 in
    let maxVal := wrap64 (wrap64 (Z.shiftl 1 bitSize) - 1) in
    ParseUint_loop base maxVal cutoff 0 str.

End strconv.

(** The verbs of [fmt.Sprintf] that [check.go] uses on numbers and digests. *)
Module fmt.

Definition digit_char (d : Z) : ascii := ascii_of_N (Z.to_N (48 + d)).

(** The digit loop of the integer formatter, least significant digit first
    into the front of [buf]; the library's buffer is a fixed array, twenty
    digits hold every [uint64]. *)
Fixpoint fmt_u (fuel : nat) (u : Z) (buf : string) : string :=
  match fuel with
  | O => buf
  | S fuel' =>
      if 10 <=? u then
        let next := u / 10 in
        fmt_u fuel' next (String (digit_char (u - next * 10)) buf)
      else String (digit_char u) buf
  end.

Fixpoint zeros (n : nat) : string :=
  match n with
  | O => EmptyString
  | S n' => String "0" (zeros n')
  end.

(** [Sprintf("%0<width>d", u)] for an unsigned [u]: the decimal digits,
    padded on the left with ['0'] up to [width] bytes, never cut. *)
Definition Sprintf_0d (width : nat) (u : Z) : string :=
  let ds := fmt_u 20 u EmptyString in
  (zeros (width - String.length ds) ++ ds)%string.

Definition hex_char (d : N) : ascii :=
  if (d <? 10)%N then ascii_of_N (48 + d) else ascii_of_N (87 + d).

(** [Sprintf("%x", b)] for a byte slice: two lower-case digits a byte. *)
Fixpoint Sprintf_x (b : list byte) : string :=
  match b with
  | [] => EmptyString
  | x :: b' =>
      let n := Byte.to_N x in
      String (hex_char (n / 16)) (String (hex_char (n mod 16)) (Sprintf_x b'))
  end.

End fmt.

(** [regexp]: both patterns of [check.go] are one character class repeated
    a fixed number of times, so a compiled pattern is the class, as a list
    of byte ranges, and the repetition count.  [FindString] returns the
    leftmost match, or the empty text if there is none.  (The library works
    on runes; the class holds ASCII bytes only, so matching byte by byte is
    the same.) *)
Module regexp.

Record Regexp := { class : list (ascii * ascii); reps : nat }.

Definition in_class (r : Regexp) (c : ascii) : bool :=
  existsb (fun range => byte_in (fst range) (snd range) c) (class r).

(** The match of [n] class bytes at the start of [str], if there is one. *)
Fixpoint match_here (r : Regexp) (n : nat) (str : string) : option string :=
  match n with
  | O => Some EmptyString
  | S n' =>
      match str with
      | EmptyString => None
      | String c str' =>
          if in_class r c then
            match match_here r n' str' with
            | Some m => Some (String c m)
            | None => None
            end
          else None
      end
  end.

Fixpoint FindString (r : Regexp) (str : string) : string :=
  match match_here r (reps r) str with
  | Some m => m
  | None =>
      match str with
      | EmptyString => EmptyString
      | String _ str' => FindString r str'
      end
  end.

Definition hex_class : list (ascii * ascii) :=
  [("0", "9"); ("a", "f"); ("A", "F")]%char.

(** ["[0-9a-fA-F]{32}"] *)
Definition hex32 : Regexp := {| class := hex_class; reps := 32 |}.
(** ["[0-9a-fA-F]"] *)
Definition hex1 : Regexp := {| class := hex_class; reps := 1 |}.

End regexp.

(** [filepath.Base] on a system whose separator is ['/'] and that has no
    volume names. *)
Module filepath.

Definition is_sep (c : ascii) : bool := Ascii.eqb c "/".

Fixpoint strip_trailing (path : string) : string :=
  match path with
  | EmptyString => EmptyString
  | String c path' =>
      let t := strip_trailing path' in
      if is_sep c && String.eqb t "" then EmptyString else String c t
  end.

Fixpoint has_sep (path : string) : bool :=
  match path with
  | EmptyString => false
  | String c path' => is_sep c || has_sep path'
  end.

(** The text after the last separator, the whole text if there is none. *)
Fixpoint last_element (path : string) : string :=
  match path with
  | EmptyString => EmptyString
  | String c path' =>
      if has_sep path' then last_element path'
      else if is_sep c then path' else path
  end.

Definition Base (path : string) : string :=
  if String.eqb path "" then "."
  else
    let p := last_element (strip_trailing path) in
    if String.eqb p "" then "/" else p.

End filepath.

(** ** The data model of [check.go] *)

Definition xattrSha256 : string := "user.shatag.sha256".
Definition xattrTsSha256 : string := "user.shatag.ts".
Definition zeroSha256 : string :=
  "0000000000000000000000000000000000000000000000000000000000000000".

Definition xattrMd5 : string := "user.shatag.md5".
Definition xattrTsMd5 : string := "user.shatag.tsmd5".
Definition zeroMd5 : string := "00000000000000000000000000000000".

(** [s] is a [uint64], [ns] a [uint32]. *)
Record fileTimestamp := { s : Z; ns : Z }.

Definition zeroFileTimeStamp : fileTimestamp := {| s := 0; ns := 0 |}.

(** [==] on the struct: field by field. *)
Definition fileTimestamp_eqb (a b : fileTimestamp) : bool :=
  (s a =? s b) && (ns a =? ns b).

Definition fileTimestamp_prettyPrint (t : fileTimestamp) : string :=
  (fmt.Sprintf_0d 10 (s t) ++ "." ++ fmt.Sprintf_0d 9 (ns t))%string.

Record fileAttr := {
  ts : fileTimestamp;
  tsMd5 : fileTimestamp;
  sha256 : list byte;
  md5 : list byte
}.

(** The zero value a named result of type [fileAttr] starts from: zero
    timestamps and nil slices. *)
Definition fileAttr_zero : fileAttr :=
  {| ts := zeroFileTimeStamp; tsMd5 := zeroFileTimeStamp;
     sha256 := []; md5 := [] |}.

Definition set_ts (t : fileTimestamp) (a : fileAttr) : fileAttr :=
  {| ts := t; tsMd5 := tsMd5 a; sha256 := sha256 a; md5 := md5 a |}.
Definition set_tsMd5 (t : fileTimestamp) (a : fileAttr) : fileAttr :=
  {| ts := ts a; tsMd5 := t; sha256 := sha256 a; md5 := md5 a |}.
Definition set_sha256 (d : list byte) (a : fileAttr) : fileAttr :=
  {| ts := ts a; tsMd5 := tsMd5 a; sha256 := d; md5 := md5 a |}.
Definition set_md5 (d : list byte) (a : fileAttr) : fileAttr :=
  {| ts := ts a; tsMd5 := tsMd5 a; sha256 := sha256 a; md5 := d |}.
Definition set_s (z : Z) (t : fileTimestamp) : fileTimestamp :=
  {| s := z; ns := ns t |}.
Definition set_ns (z : Z) (t : fileTimestamp) : fileTimestamp :=
  {| s := s t; ns := z |}.

Definition nl : string := String (ascii_of_nat 10) EmptyString.

Definition fileAttr_prettyPrint (a : fileAttr) : string :=
  (string_of_list_byte (sha256 a) ++ " " ++ fileTimestamp_prettyPrint (ts a)
   ++ nl ++ "md5:" ++ string_of_list_byte (md5 a) ++ " "
   ++ fileTimestamp_prettyPrint (tsMd5 a))%string.

(** ** The outside world *)

(** The text of an error the operating system reports ([*PathError] and
    the like); never the bare [syscall.EINPROGRESS]. *)
Definition ioerr := string.

Inductive result (A : Type) : Type :=
| Success (a : A)
| Failure (e : ioerr).
Arguments Success {A} a.
Arguments Failure {A} e.

(** A non-nil Go [error] inside [check.go]. *)
Inductive error :=
| EINPROGRESS
| EIO (e : ioerr).

Definition error_text (e : error) : string :=
  match e with
  | EINPROGRESS => "operation now in progress"
  | EIO t => t
  end.

(** What [fi.ModTime()] gives: [Unix()] is an [int64], [Nanosecond()] an
    [int]. *)
Record ModTime := { Unix : Z; Nanosecond : Z }.

(** An open file, as an oracle for one check: what [xattr.FGet] answers for
    each attribute name, what the k-th [Stat] answers, what streaming the
    content gives, and how [storeAttr] and [removeAttr] (helpers of the
    program that are not in [check.go]) end. *)
Record File := {
  xattr_FGet : string -> result (list byte);
  Stat : nat -> result ModTime;
  io_Copy : result (list byte);
  storeAttr_result : bool -> fileAttr -> option ioerr;
  removeAttr_result : option ioerr
}.

(** The counters of the global [stats], which is declared outside
    [check.go]: one increment a branch, modelled without a bound. *)
Record Stats := {
  total : Z;
  errorsOpening : Z;
  errorsOther : Z;
  errorsWritingXattr : Z;
  inprogress : Z;
  corrupt : Z;
  timechange : Z;
  outdated : Z;
  newfile : Z;
  ok : Z
}.

Inductive Counter :=
| c_total | c_errorsOpening | c_errorsOther | c_errorsWritingXattr
| c_inprogress | c_corrupt | c_timechange | c_outdated | c_newfile | c_ok.

Definition get (c : Counter) (st : Stats) : Z :=
  match c with
  | c_total => total st
  | c_errorsOpening => errorsOpening st
  | c_errorsOther => errorsOther st
  | c_errorsWritingXattr => errorsWritingXattr st
  | c_inprogress => inprogress st
  | c_corrupt => corrupt st
  | c_timechange => timechange st
  | c_outdated => outdated st
  | c_newfile => newfile st
  | c_ok => ok st
  end.

Definition Counter_eqb (a b : Counter) : bool :=
  match a, b with
  | c_total, c_total | c_errorsOpening, c_errorsOpening
  | c_errorsOther, c_errorsOther
  | c_errorsWritingXattr, c_errorsWritingXattr
  | c_inprogress, c_inprogress | c_corrupt, c_corrupt
  | c_timechange, c_timechange | c_outdated, c_outdated
  | c_newfile, c_newfile | c_ok, c_ok => true
  | _, _ => false
  end.

(** [stats.c++] *)
Definition incr (c : Counter) (st : Stats) : Stats :=
  let bump c' := if Counter_eqb c c' then get c' st + 1 else get c' st in
  {| total := bump c_total;
     errorsOpening := bump c_errorsOpening;
     errorsOther := bump c_errorsOther;
     errorsWritingXattr := bump c_errorsWritingXattr;
     inprogress := bump c_inprogress;
     corrupt := bump c_corrupt;
     timechange := bump c_timechange;
     outdated := bump c_outdated;
     newfile := bump c_newfile;
     ok := bump c_ok |}.

(** What a check does to the outside, in order. *)
Inductive Event :=
| EvFGet (name : string)
| EvStat
| EvCopy
| EvStore (bMd5 : bool) (attr : fileAttr)
| EvRemove
| Stdout (text : string)
| Stderr (text : string)
| StderrCorrupt (fn : string).

Record World := {
  stats : Stats;
  stat_calls : nat;
  log : list Event
}.

Definition emit (e : Event) (w : World) : World :=
  {| stats := stats w; stat_calls := stat_calls w; log := log w ++ [e] |}.

Definition count (c : Counter) (w : World) : World :=
  {| stats := incr c (stats w); stat_calls := stat_calls w; log := log w |}.

Definition tick (w : World) : World :=
  {| stats := stats w; stat_calls := S (stat_calls w); log := log w |}.

(** [if !flag { fmt.Printf(...) }] *)
Definition print_unless (flag : bool) (text : string) (w : World) : World :=
  if flag then w else emit (Stdout text) w.

(** The flags [checkFile] reads from the globals [args], [gBOnlyFilename]
    and [gBCheckFilename]. *)
Record Globals := {
  args_remove : bool;
  args_q : bool;
  args_qq : bool;
  gBOnlyFilename : bool;
  gBCheckFilename : bool
}.

(** ** [check.go], function by function *)

(** [xattr.FGet(f, name)] *)
Definition FGet (f : File) (name : string) (w : World)
  : result (list byte) * World :=
  (xattr_FGet f name, emit (EvFGet name) w).

Definition getStoredAttrSha256 (f : File) (w : World)
  : fileAttr * option error * World :=
  let attr := fileAttr_zero in
  let attr := set_sha256 (list_byte_of_string zeroSha256) attr in
  let '(r, w) := FGet f xattrSha256 w in
  let attr :=
    match r with
    | Success val => set_sha256 (bytes.copy (sha256 attr) val) attr
    | Failure _ => attr
    end in
  let '(r, w) := FGet f xattrTsSha256 w in
  let attr :=
    match r with
    | Success val =>
        match strings.SplitN (string_of_list_byte val) "." 2 with
        | parts0 :: rest =>
            let attr :=
              set_ts (set_s (fst (strconv.ParseUint parts0 10 64)) (ts attr))
                     attr in
            match rest with
            | parts1 :: _ =>
                let ns64 := fst (strconv.ParseUint parts1 10 32) in
                set_ts (set_ns (wrap32 ns64) (ts attr)) attr
            | [] => attr
            end
        | [] => attr  (* [SplitN] with [n = 2] returns a piece *)
        end
    | Failure _ => attr
    end in
  (attr, None, w).

Definition getStoredAttrMd5 (f : File) (w : World)
  : fileAttr * option error * World :=
  let attr := fileAttr_zero in
  let attr := set_md5 (list_byte_of_string zeroMd5) attr in
  let '(r, w) := FGet f xattrMd5 w in
  let attr :=
    match r with
    | Success val => set_md5 (bytes.copy (md5 attr) val) attr
    | Failure _ => attr
    end in
  let '(r, w) := FGet f xattrTsMd5 w in
  let attr :=
    match r with
    | Success val =>
        match strings.SplitN (string_of_list_byte val) "." 2 with
        | parts0 :: rest =>
            let attr :=
              set_tsMd5
                (set_s (fst (strconv.ParseUint parts0 10 64)) (tsMd5 attr))
                attr in
            match rest with
            | parts1 :: _ =>
                let ns64 := fst (strconv.ParseUint parts1 10 32) in
                set_tsMd5 (set_ns (wrap32 ns64) (tsMd5 attr)) attr
            | [] => attr
            end
        | [] => attr  (* [SplitN] with [n = 2] returns a piece *)
        end
    | Failure _ => attr
    end in
  (attr, None, w).

Definition getStoredAttr (bMd5 : bool) (f : File) (w : World)
  : fileAttr * option error * World :=
  if bMd5 then getStoredAttrMd5 f w else getStoredAttrSha256 f w.

(** The timestamp [getMtime] makes of a [Stat] answer. *)
Definition mtime_of (fi : ModTime) : fileTimestamp :=
  {| s := wrap64 (Unix fi); ns := wrap32 (Nanosecond fi) |}.

Definition getMtime (f : File) (w : World)
  : fileTimestamp * option error * World :=
  let w' := tick (emit EvStat w) in
  match Stat f (stat_calls w) with
  | Failure e => (zeroFileTimeStamp, Some (EIO e), w')
  | Success fi => (mtime_of fi, None, w')
  end.

Section Engine.

(** [md5.New()] / [sha256.New()], [io.Copy] into it and [h.Sum(nil)]: the
    raw digest of the bytes streamed. *)
Variable md5_Sum : list byte -> list byte.
Variable sha256_Sum : list byte -> list byte.

Definition getActualAttrMd5 (f : File) (w : World)
  : fileAttr * option error * World :=
  let attr := set_md5 (list_byte_of_string zeroMd5) fileAttr_zero in
  let '(t, err, w) := getMtime f w in
  let attr := set_tsMd5 t attr in
  match err with
  | Some e => (attr, Some e, w)
  | None =>
      let w := emit EvCopy w in
      match io_Copy f with
      | Failure e => (attr, Some (EIO e), w)
      | Success content =>
          let '(ts2, err, w) := getMtime f w in
          match err with
          | Some e => (attr, Some e, w)
          | None =>
              if negb (fileTimestamp_eqb (tsMd5 attr) ts2)
              then (attr, Some EINPROGRESS, w)
              else
                let hex := fmt.Sprintf_x (md5_Sum content) in
                (set_md5 (list_byte_of_string hex) attr, None, w)
          end
      end
  end.

Definition getActualAttrSha256 (f : File) (w : World)
  : fileAttr * option error * World :=
  let attr := set_sha256 (list_byte_of_string zeroSha256) fileAttr_zero in
  let '(t, err, w) := getMtime f w in
  let attr := set_ts t attr in
  match err with
  | Some e => (attr, Some e, w)
  | None =>
      let w := emit EvCopy w in
      match io_Copy f with
      | Failure e => (attr, Some (EIO e), w)
      | Success content =>
          let '(ts2, err, w) := getMtime f w in
          match err with
          | Some e => (attr, Some e, w)
          | None =>
              if negb (fileTimestamp_eqb (ts attr) ts2)
              then (attr, Some EINPROGRESS, w)
              else
                let hex := fmt.Sprintf_x (sha256_Sum content) in
                (set_sha256 (list_byte_of_string hex) attr, None, w)
          end
      end
  end.

Definition getActualAttr (bMd5 : bool) (f : File) (w : World)
  : fileAttr * option error * World :=
  if bMd5 then getActualAttrMd5 f w else getActualAttrSha256 f w.

End Engine.

Definition timesMatch (bMd5 : bool) (stored actual : fileAttr) : bool :=
  if bMd5 && fileTimestamp_eqb (tsMd5 stored) (tsMd5 actual) then true
  else if negb bMd5 && fileTimestamp_eqb (ts stored) (ts actual) then true
  else false.

Definition timesMatchZero (bMd5 : bool) (attr : fileAttr) : bool :=
  if bMd5 && fileTimestamp_eqb (tsMd5 attr) zeroFileTimeStamp then true
  else if negb bMd5 && fileTimestamp_eqb (ts attr) zeroFileTimeStamp then true
  else false.

Definition checksumsMatch (bMd5 : bool) (stored actual : fileAttr) : bool :=
  if bMd5 && bytes.Equal (md5 stored) (md5 actual) then true
  else if negb bMd5 && bytes.Equal (sha256 stored) (sha256 actual) then true
  else false.

Definition bytesMatchZero (bMd5 : bool) (attr : fileAttr) : bool :=
  if bMd5 && bytes.Equal (md5 attr) (list_byte_of_string zeroMd5) then true
  else if negb bMd5
          && bytes.Equal (sha256 attr) (list_byte_of_string zeroSha256)
       then true
  else false.

(** The parameter [bMd5] is not read; the width [len] selects the pattern. *)
Definition extractChecksumFromFilename (bMd5 : bool) (fn : string) (len : Z)
  : string :=
  if len =? 32 then regexp.FindString regexp.hex32 fn
  else regexp.FindString regexp.hex1 fn.

Definition checkFilename (bMd5 : bool) (pathFile : string) (actual : fileAttr)
  : bool :=
  let fn := filepath.Base pathFile in
  let hash :=
    if bMd5 then list_byte_of_string (extractChecksumFromFilename bMd5 fn 32)
    else list_byte_of_string (extractChecksumFromFilename bMd5 fn 0) in
  if bMd5 then
    if bytes.Equal hash (md5 actual) then true else false
  else
    if bytes.Equal hash (sha256 actual) then true else false.

Definition printComparison (stored actual : fileAttr) (w : World) : World :=
  emit (Stdout (" stored: " ++ fileAttr_prettyPrint stored ++ nl
                ++ " actual: " ++ fileAttr_prettyPrint actual ++ nl)%string) w.

(** [storeAttr(bMd5, f, attr)] and [removeAttr(f)] are called here and
    defined elsewhere in the program: the call is logged and the oracle of
    the file says how it ends. *)
Definition storeAttr (bMd5 : bool) (f : File) (attr : fileAttr) (w : World)
  : option error * World :=
  (option_map EIO (storeAttr_result f bMd5 attr), emit (EvStore bMd5 attr) w).

Definition removeAttr (f : File) (w : World) : option error * World :=
  (option_map EIO (removeAttr_result f), emit EvRemove w).

Definition print_error (e : error) (w : World) : World :=
  emit (Stderr ("Error: " ++ error_text e ++ nl)%string) w.

(** [checkFile] returns nothing; the model returns, next to the world it
    leaves, the name of the branch it left through, after the message that
    branch prints. *)
Inductive Verdict :=
| OpenError | RemoveError | RemovedAttributes
| FilenameOnlyOk | FilenameOnlyMismatch
| ConcurrentModification | ReadError
| Ok | FilenameNotMatched | Corrupt | TimeChanged | New | Outdated.

Section CheckFile.

Variable md5_Sum : list byte -> list byte.
Variable sha256_Sum : list byte -> list byte.
(** [os.Open] *)
Variable os_Open : string -> result File.
Variable g : Globals.

(** Lines 345 to 353: what the four branches that do not return by
    themselves run into. *)
Definition persist (bMd5 : bool) (f : File) (stored actual : fileAttr)
  (v : Verdict) (w : World) : Verdict * World :=
  let w := if args_qq g then w else printComparison stored actual w in
  let '(err, w) := storeAttr bMd5 f actual w in
  match err with
  | Some e => (v, count c_errorsWritingXattr (print_error e w))
  | None => (v, w)
  end.

Definition checkFile (bMd5 : bool) (fn : string) (w : World)
  : Verdict * World :=
  let w := count c_total w in
  match os_Open fn with
  | Failure e => (OpenError, count c_errorsOpening (print_error (EIO e) w))
  | Success f =>
      if args_remove g then
        let '(err, w) := removeAttr f w in
        match err with
        | Some e => (RemoveError, count c_errorsOther (print_error e w))
        | None =>
            let w := print_unless (args_q g)
                       ("<removed xattr> " ++ fn ++ nl)%string w in
            (RemovedAttributes, count c_ok w)
        end
      else
        let '(stored, _, w) := getStoredAttr bMd5 f w in
        if gBOnlyFilename g then
          let bMatch := checkFilename bMd5 fn stored in
          if bMatch then
            (FilenameOnlyOk,
             print_unless (args_q g) ("<ok> " ++ fn ++ nl)%string w)
          else
            (FilenameOnlyMismatch,
             print_unless (args_qq g)
               ("<filename " ++ fn ++ " does not match md5 "
                ++ string_of_list_byte (md5 stored) ++ "> " ++ fn ++ nl)%string
               w)
        else
          let '(actual, err, w) :=
            getActualAttr md5_Sum sha256_Sum bMd5 f w in
          match err with
          | Some EINPROGRESS =>
              let w := print_unless (args_qq g)
                         ("<concurrent modification> " ++ fn ++ nl)%string w in
              (ConcurrentModification, count c_inprogress w)
          | Some e => (ReadError, count c_errorsOther (print_error e w))
          | None =>
              if timesMatch bMd5 stored actual then
                if checksumsMatch bMd5 stored actual then
                  if gBCheckFilename g && negb (checkFilename bMd5 fn actual)
                  then
                    let w :=
                      if args_q g then w
                      else printComparison stored actual
                             (emit (Stdout ("<filename not matched> " ++ fn
                                            ++ nl)%string) w) in
                    (FilenameNotMatched, w)
                  else
                    let w := print_unless (args_q g)
                               ("<ok> " ++ fn ++ nl)%string w in
                    (Ok, count c_ok w)
                else
                  let w := emit (StderrCorrupt fn) w in
                  let w := emit (Stdout ("<corrupt> " ++ fn ++ nl)%string) w in
                  persist bMd5 f stored actual Corrupt (count c_corrupt w)
              else if checksumsMatch bMd5 stored actual then
                let w := print_unless (args_qq g)
                           ("<timechange> " ++ fn ++ nl)%string w in
                persist bMd5 f stored actual TimeChanged (count c_timechange w)
              else if bytesMatchZero bMd5 stored && timesMatchZero bMd5 stored
              then
                let w := print_unless (args_qq g)
                           ("<new> " ++ fn ++ nl)%string w in
                persist bMd5 f stored actual New (count c_newfile w)
              else
                let w := print_unless (args_qq g)
                           ("<outdated> " ++ fn ++ nl)%string w in
                persist bMd5 f stored actual Outdated (count c_outdated w)
          end
  end.

End CheckFile.

(** ** Vocabulary of the specification *)

(** The fields of the selected algorithm. *)
Definition digest (bMd5 : bool) (a : fileAttr) : list byte :=
  if bMd5 then md5 a else sha256 a.
Definition stamp (bMd5 : bool) (a : fileAttr) : fileTimestamp :=
  if bMd5 then tsMd5 a else ts a.
Definition zero_digest (bMd5 : bool) : list byte :=
  list_byte_of_string (if bMd5 then zeroMd5 else zeroSha256).
Definition digest_width (bMd5 : bool) : nat := if bMd5 then 32%nat else 64%nat.
Definition digest_xattr (bMd5 : bool) : string :=
  if bMd5 then xattrMd5 else xattrSha256.
Definition stamp_xattr (bMd5 : bool) : string :=
  if bMd5 then xattrTsMd5 else xattrTsSha256.

(** The width [checkFilename] asks the extractor for. *)
Definition wanted_len (bMd5 : bool) : Z := if bMd5 then 32 else 0.

(** What a check appended to the log. *)
Definition new_events (w w' : World) : list Event :=
  skipn (List.length (log w)) (log w').

Definition is_store (e : Event) : bool :=
  match e with EvStore _ _ => true | _ => false end.
Definition is_hashing (e : Event) : bool :=
  match e with EvStat | EvCopy => true | _ => false end.
Definition is_output (e : Event) : bool :=
  match e with Stdout _ | Stderr _ | StderrCorrupt _ => true | _ => false end.

(** The verdicts that end in [storeAttr]. *)
Definition persists (v : Verdict) : bool :=
  match v with
  | Corrupt | TimeChanged | New | Outdated => true
  | _ => false
  end.

(** The truth table of the classification, with [okv] the verdict of the
    row "timestamps match and digests match". *)
Definition table (okv : Verdict) (bMd5 : bool) (stored actual : fileAttr)
  (v : Verdict) : Prop :=
  let T := stamp bMd5 stored = stamp bMd5 actual in
  let D := digest bMd5 stored = digest bMd5 actual in
  let Z := digest bMd5 stored = zero_digest bMd5
           /\ stamp bMd5 stored = zeroFileTimeStamp in
  (T /\ D <-> v = okv)
  /\ (T /\ ~ D <-> v = Corrupt)
  /\ (~ T /\ D <-> v = TimeChanged)
  /\ (~ T /\ ~ D /\ Z <-> v = New)
  /\ (~ T /\ ~ D /\ ~ Z <-> v = Outdated).

(** The text fields of a stored timestamp: the text before the first ['.'],
    and the text after it when there is a ['.']. *)
Definition seconds_text (val : list byte) : string :=
  match strings.Cut (string_of_list_byte val) "." with
  | Some (a, _) => a
  | None => string_of_list_byte val
  end.
Definition nanos_text (val : list byte) : option string :=
  match strings.Cut (string_of_list_byte val) "." with
  | Some (_, b) => Some b
  | None => None
  end.

(** A hexadecimal digit, and the maximal runs of them in a text, left to
    right. *)
Definition is_hex (c : ascii) : bool :=
  byte_in "0" "9" c || byte_in "a" "f" c || byte_in "A" "F" c.

Definition starts_hex (str : string) : bool :=
  match str with
  | EmptyString => false
  | String c _ => is_hex c
  end.

Fixpoint hex_runs (str : string) : list string :=
  match str with
  | EmptyString => []
  | String c str' =>
      if is_hex c then
        if starts_hex str' then
          match hex_runs str' with
          | r :: rs => String c r :: rs
          | [] => [String c EmptyString]
          end
        else String c EmptyString :: hex_runs str'
      else hex_runs str'
  end.

Definition first_run (p : string -> bool) (str : string) : string :=
  match find p (hex_runs str) with
  | Some r => r
  | None => EmptyString
  end.

(** "The first maximal run of hex-digit characters of exactly 32
    characters, or empty text". *)
Definition first_run_of_exactly_32 (fn : string) : string :=
  first_run (fun r => Nat.eqb (String.length r) 32) fn.

(** The first 32 bytes of the first maximal run of at least 32. *)
Definition head_of_first_run_of_32_or_more (fn : string) : string :=
  substring 0 32 (first_run (fun r => Nat.leb 32 (String.length r)) fn).

Fixpoint first_hex_char (fn : string) : string :=
  match fn with
  | EmptyString => EmptyString
  | String c fn' => if is_hex c then String c EmptyString else first_hex_char fn'
  end.

Definition differ_only_in (names : list string) (f1 f2 : File) : Prop :=
  (forall name, ~ In name names -> xattr_FGet f1 name = xattr_FGet f2 name)
  /\ Stat f1 = Stat f2
  /\ io_Copy f1 = io_Copy f2
  /\ storeAttr_result f1 = storeAttr_result f2
  /\ removeAttr_result f1 = removeAttr_result f2.

(** Two outcomes of [os.Open]: the same failure, or two files that differ
    in the listed attributes only. *)
Definition opened_alike (names : list string) (r1 r2 : result File) : Prop :=
  match r1, r2 with
  | Success f1, Success f2 => differ_only_in names f1 f2
  | Failure e1, Failure e2 => e1 = e2
  | _, _ => False
  end.

(** The same file with a [storeAttr] that succeeds. *)
Definition with_store_ok (f : File) : File :=
  {| xattr_FGet := xattr_FGet f; Stat := Stat f; io_Copy := io_Copy f;
     storeAttr_result := fun _ _ => None;
     removeAttr_result := removeAttr_result f |}.

(** The digest field after [copy] over the zero digest. *)
Definition stored_digest_of (bMd5 : bool) (f : File) : list byte :=
  match xattr_FGet f (digest_xattr bMd5) with
  | Success val =>
      firstn (digest_width bMd5) val
      ++ repeat "0"%byte (digest_width bMd5 - List.length val)
  | Failure _ => zero_digest bMd5
  end.

(** ** Sample inputs *)

(** Digest functions for the samples: constant at the MD5 and the SHA-256
    of the empty content, which is what the sample files hold. *)
Definition sample_md5_Sum (_ : list byte) : list byte :=
  [xd4; x1d; x8c; xd9; x8f; x00; xb2; x04;
   xe9; x80; x09; x98; xec; xf8; x42; x7e]%byte.
Definition sample_sha256_Sum (_ : list byte) : list byte :=
  [xe3; xb0; xc4; x42; x98; xfc; x1c; x14; x9a; xfb; xf4; xc8; x99; x6f; xb9; x24;
   x27; xae; x41; xe4; x64; x9b; x93; x4c; xa4; x95; x99; x1b; x78; x52; xb8; x55]%byte.

Fixpoint lookup_xattr (name : string) (xs : list (string * string))
  : result (list byte) :=
  match xs with
  | [] => Failure "no data available"
  | (k, v) :: xs' =>
      if String.eqb k name then Success (list_byte_of_string v)
      else lookup_xattr name xs'
  end.

(** An empty file with the given attributes, whose modification time is
    [before] at the first [Stat] and [after] from then on; [storeAttr] ends
    as [store] says. *)
Definition sample_file (xs : list (string * string)) (before after : ModTime)
  (store : option ioerr) : File :=
  {| xattr_FGet := fun name => lookup_xattr name xs;
     Stat := fun k => Success (match k with O => before | _ => after end);
     io_Copy := Success [];
     storeAttr_result := fun _ _ => store;
     removeAttr_result := None |}.

Definition sample_mtime : ModTime :=
  {| Unix := 1560177334; Nanosecond := 20775051 |}.
Definition sample_mtime_later : ModTime :=
  {| Unix := 1560177399; Nanosecond := 0 |}.

Definition no_stats : Stats :=
  {| total := 0; errorsOpening := 0; errorsOther := 0;
     errorsWritingXattr := 0; inprogress := 0; corrupt := 0; timechange := 0;
     outdated := 0; newfile := 0; ok := 0 |}.
Definition fresh_world : World :=
  {| stats := no_stats; stat_calls := 0; log := [] |}.

Definition flags (remove q qq onlyFilename checkFilename : bool) : Globals :=
  {| args_remove := remove; args_q := q; args_qq := qq;
     gBOnlyFilename := onlyFilename; gBCheckFilename := checkFilename |}.

(** A file checked before under MD5 and not touched since. *)
Definition tagged_md5_file : File :=
  sample_file
    [(xattrMd5, "d41d8cd98f00b204e9800998ecf8427e");
     (xattrTsMd5, "1560177334.020775051")]
    sample_mtime sample_mtime None.

(** A file without attributes. *)
Definition untagged_file : File :=
  sample_file [] sample_mtime sample_mtime None.

Definition open_as (f : File) (_ : string) : result File := Success f.

(** ** Vocabulary of the proofs and further samples *)

Definition emit_reads (bMd5 : bool) (w : World) : World :=
  emit (EvFGet (stamp_xattr bMd5)) (emit (EvFGet (digest_xattr bMd5)) w).

(** The attribute record a torn read leaves: the timestamp seen first and
    the zero digest of the algorithm. *)
Definition torn_attr (bMd5 : bool) (before : ModTime) : fileAttr :=
  if bMd5 then
    set_tsMd5 (mtime_of before)
      (set_md5 (list_byte_of_string zeroMd5) fileAttr_zero)
  else
    set_ts (mtime_of before)
      (set_sha256 (list_byte_of_string zeroSha256) fileAttr_zero).

Definition after_hashing (w : World) : World :=
  tick (emit EvStat (emit EvCopy (tick (emit EvStat w)))).

(** The verdict of the row "timestamps match and digests match": [Ok],
    unless the filename is to be verified and does not carry the digest. *)
Definition ok_or_demoted (g : Globals) (bMd5 : bool) (fn : string)
  (actual : fileAttr) : Verdict :=
  if gBCheckFilename g && negb (checkFilename bMd5 fn actual)
  then FilenameNotMatched else Ok.

(** [os.Open] handing out the same files with a [storeAttr] that succeeds. *)
Definition open_with_store_ok (os_Open : string -> result File)
  (fn : string) : result File :=
  match os_Open fn with
  | Success f => Success (with_store_ok f)
  | Failure e => Failure e
  end.

(** A new file on a filesystem that refuses extended attributes. *)
Definition unwritable_file : File :=
  sample_file [] sample_mtime sample_mtime (Some "operation not supported").

(** The checksum [checkFilename] reads off the base name. *)
Definition filename_checksum (bMd5 : bool) (pathFile : string) : list byte :=
  list_byte_of_string
    (extractChecksumFromFilename bMd5 (filepath.Base pathFile)
       (wanted_len bMd5)).

(** The lines a [FilenameNotMatched] verdict prints. *)
Definition not_matched_report (fn : string) (stored actual : fileAttr)
  : list Event :=
  [Stdout ("<filename not matched> " ++ fn ++ nl)%string;
   Stdout (" stored: " ++ fileAttr_prettyPrint stored ++ nl
           ++ " actual: " ++ fileAttr_prettyPrint actual ++ nl)%string].

(** The attribute names of the algorithm that is not selected. *)
Definition other_xattrs (bMd5 : bool) : list string :=
  [digest_xattr (negb bMd5); stamp_xattr (negb bMd5)].

(** Under SHA-256: a tagged file, and the same file carrying MD5 attributes
    as well. *)
Definition sha_tagged : list (string * string) :=
  [(xattrSha256,
    "e3b0c44298fc1c149afbf4c8996fb92427ae41e4649b934ca495991b7852b855");
   (xattrTsSha256, "1560177334.020775051")].
Definition sha_tagged_file : File :=
  sample_file sha_tagged sample_mtime sample_mtime None.
Definition sha_and_md5_tagged_file : File :=
  sample_file
    ((xattrMd5, "ffffffffffffffffffffffffffffffff")
     :: (xattrTsMd5, "0000000001.000000001") :: sha_tagged)
    sample_mtime sample_mtime None.

(** A text of decimal digits, and the number it spells after [acc]. *)
Fixpoint all_digits (str : string) : Prop :=
  match str with
  | EmptyString => True
  | String c str' => 48 <= code c <= 57 /\ all_digits str'
  end.

Fixpoint value_of (acc : Z) (str : string) : Z :=
  match str with
  | EmptyString => acc
  | String c str' => value_of (acc * 10 + (code c - 48)) str'
  end.



(** The longest prefix of hexadecimal digits. *)
Fixpoint hex_prefix (str : string) : string :=
  match str with
  | EmptyString => EmptyString
  | String c str' => if is_hex c then String c (hex_prefix str') else EmptyString
  end.

Definition hex_times (n : nat) : regexp.Regexp :=
  {| regexp.class := regexp.hex_class; regexp.reps := n |}.

(** The counter, besides [total], of the branch a verdict names. *)
Definition counter_of (v : Verdict) : option Counter :=
  match v with
  | OpenError => Some c_errorsOpening
  | RemoveError | ReadError => Some c_errorsOther
  | RemovedAttributes | Ok => Some c_ok
  | ConcurrentModification => Some c_inprogress
  | Corrupt => Some c_corrupt
  | TimeChanged => Some c_timechange
  | New => Some c_newfile
  | Outdated => Some c_outdated
  | FilenameOnlyOk | FilenameOnlyMismatch | FilenameNotMatched => None
  end.

(** ** Vocabulary of the further properties *)

(** A text of lower-case hexadecimal digits. *)
Fixpoint all_lower_hex (str : string) : Prop :=
  match str with
  | EmptyString => True
  | String c str' =>
      (byte_in "0" "9" c = true \/ byte_in "a" "f" c = true)
      /\ all_lower_hex str'
  end.

(** The digest function of the selected algorithm. *)
Definition Sum_of (md5_Sum sha256_Sum : list byte -> list byte)
  (bMd5 : bool) : list byte -> list byte :=
  if bMd5 then md5_Sum else sha256_Sum.

(** The operations on the file that [getActualAttr] performs, in order. *)
Definition hashing_steps (f : File) (w : World) : list Event :=
  match Stat f (stat_calls w) with
  | Failure _ => [EvStat]
  | Success _ =>
      match io_Copy f with
      | Failure _ => [EvStat; EvCopy]
      | Success _ => [EvStat; EvCopy; EvStat]
      end
  end.

(** The verdicts of a check that failed. *)
Definition is_failure (v : Verdict) : bool :=
  match v with
  | OpenError | RemoveError | ReadError => true
  | _ => false
  end.

Definition open_nothing (_ : string) : result File :=
  Failure "no such file or directory".

(** What a check does besides printing. *)
Definition is_action (e : Event) : bool := negb (is_output e).

(** The same flags with both quiet flags set. *)
Definition silenced (g : Globals) : Globals :=
  flags (args_remove g) true true (gBOnlyFilename g) (gBCheckFilename g).

Definition is_stdout (e : Event) : bool :=
  match e with Stdout _ => true | _ => false end.

(** The timestamp text with any zero padding. *)
Definition padded_text (width1 width2 : nat) (t : fileTimestamp) : string :=
  (fmt.Sprintf_0d width1 (s t) ++ "." ++ fmt.Sprintf_0d width2 (ns t))%string.

Fixpoint all_hex (str : string) : bool :=
  match str with
  | EmptyString => true
  | String c str' => is_hex c && all_hex str'
  end.

(** [x] occurs in [str] after [pre]. *)
Definition occurs_after (pre x str : string) : Prop :=
  exists post, str = (pre ++ x ++ post)%string.

(** A run of [n] hexadecimal digits after [pre]. *)
Definition window_after (n : nat) (pre str : string) : Prop :=
  exists x, occurs_after pre x str
            /\ String.length x = n /\ all_hex x = true.

(** * Properties *)

(** ** Facts about the library functions *)

Lemma bytes_Equal_eq (a b : list byte) : bytes.Equal a b = true <-> a = b.
Proof.
  revert b; induction a as [|x a IH]; intros [|y b]; simpl;
    try (split; discriminate); try tauto.
  rewrite andb_true_iff, IH. split.
  - intros [H ->]. apply byte_dec_bl in H. now subst.
  - intros [= -> ->]. split; [now apply byte_dec_lb | reflexivity].
Qed.

Lemma bytes_Equal_neq (a b : list byte) : bytes.Equal a b = false <-> a <> b.
Proof.
  rewrite <- bytes_Equal_eq. destruct (bytes.Equal a b); split; congruence.
Qed.

Lemma bytes_copy_length (dst src : list byte) :
  List.length (bytes.copy dst src) = List.length dst.
Proof.
  unfold bytes.copy. rewrite length_app, length_firstn, length_skipn. lia.
Qed.

Lemma skipn_repeat {A} (x : A) (n k : nat) :
  skipn n (repeat x k) = repeat x (k - n).
Proof.
  revert k; induction n as [|n IH]; intros k; simpl.
  - now rewrite Nat.sub_0_r.
  - destruct k; simpl; [reflexivity | apply IH].
Qed.

(** Copying over a buffer of [k] equal bytes: the value cut at [k], then
    what is left of the filling. *)
Lemma bytes_copy_repeat (x : byte) (k : nat) (src : list byte) :
  bytes.copy (repeat x k) src = firstn k src ++ repeat x (k - List.length src).
Proof.
  unfold bytes.copy. rewrite repeat_length, skipn_repeat.
  destruct (Nat.le_ge_cases k (List.length src)) as [H|H].
  - rewrite Nat.min_l by exact H.
    replace (k - k)%nat with 0%nat by lia.
    replace (k - List.length src)%nat with 0%nat by lia. reflexivity.
  - rewrite Nat.min_r by exact H.
    now rewrite firstn_all, (firstn_all2 (n := k)) by exact H.
Qed.

Lemma fileTimestamp_eqb_eq (a b : fileTimestamp) :
  fileTimestamp_eqb a b = true <-> a = b.
Proof.
  destruct a as [sa na], b as [sb nb]; unfold fileTimestamp_eqb; simpl.
  rewrite andb_true_iff, !Z.eqb_eq. split.
  - now intros [-> ->].
  - now intros [= -> ->].
Qed.

Lemma fileTimestamp_eqb_neq (a b : fileTimestamp) :
  fileTimestamp_eqb a b = false <-> a <> b.
Proof.
  rewrite <- fileTimestamp_eqb_eq.
  destruct (fileTimestamp_eqb a b); split; congruence.
Qed.

(** ** The comparison helpers read the selected algorithm's fields *)

Lemma timesMatch_stamp (bMd5 : bool) (stored actual : fileAttr) :
  timesMatch bMd5 stored actual
  = fileTimestamp_eqb (stamp bMd5 stored) (stamp bMd5 actual).
Proof.
  unfold timesMatch, stamp. destruct bMd5; simpl;
    now destruct (fileTimestamp_eqb _ _).
Qed.

Lemma checksumsMatch_digest (bMd5 : bool) (stored actual : fileAttr) :
  checksumsMatch bMd5 stored actual
  = bytes.Equal (digest bMd5 stored) (digest bMd5 actual).
Proof.
  unfold checksumsMatch, digest. destruct bMd5; simpl;
    now destruct (bytes.Equal _ _).
Qed.

Lemma timesMatchZero_stamp (bMd5 : bool) (attr : fileAttr) :
  timesMatchZero bMd5 attr
  = fileTimestamp_eqb (stamp bMd5 attr) zeroFileTimeStamp.
Proof.
  unfold timesMatchZero, stamp. destruct bMd5; simpl;
    now destruct (fileTimestamp_eqb _ _).
Qed.

Lemma bytesMatchZero_digest (bMd5 : bool) (attr : fileAttr) :
  bytesMatchZero bMd5 attr = bytes.Equal (digest bMd5 attr) (zero_digest bMd5).
Proof.
  unfold bytesMatchZero, digest, zero_digest. destruct bMd5; simpl;
    now destruct (bytes.Equal _ _).
Qed.

Lemma checkFilename_digest (bMd5 : bool) (pathFile : string) (a : fileAttr) :
  checkFilename bMd5 pathFile a
  = bytes.Equal
      (list_byte_of_string
         (extractChecksumFromFilename bMd5 (filepath.Base pathFile)
            (wanted_len bMd5)))
      (digest bMd5 a).
Proof.
  unfold checkFilename, digest, wanted_len. destruct bMd5;
    now destruct (bytes.Equal _ _).
Qed.

(** ** Stored attributes *)

Lemma zero_digest_repeat (bMd5 : bool) :
  zero_digest bMd5 = repeat "0"%byte (digest_width bMd5).
Proof. now destruct bMd5. Qed.

Lemma getStoredAttr_digest (bMd5 : bool) (f : File) (w : World) :
  digest bMd5 (fst (fst (getStoredAttr bMd5 f w))) = stored_digest_of bMd5 f.
Proof.
  unfold stored_digest_of.
  destruct bMd5; unfold getStoredAttr, getStoredAttrMd5, getStoredAttrSha256,
    FGet, digest, digest_xattr.
  - destruct (xattr_FGet f xattrMd5) as [val|e];
      destruct (xattr_FGet f xattrTsMd5) as [val'|e'];
      repeat match goal with
             | |- context [strings.SplitN ?a ?b ?c] =>
                 destruct (strings.SplitN a b c) as [|? [|? ?]]
             end;
      cbn [fst snd md5 set_md5 set_tsMd5 fileAttr_zero];
      try apply (bytes_copy_repeat "0"%byte 32); reflexivity.
  - destruct (xattr_FGet f xattrSha256) as [val|e];
      destruct (xattr_FGet f xattrTsSha256) as [val'|e'];
      repeat match goal with
             | |- context [strings.SplitN ?a ?b ?c] =>
                 destruct (strings.SplitN a b c) as [|? [|? ?]]
             end;
      cbn [fst snd sha256 set_sha256 set_ts fileAttr_zero];
      try apply (bytes_copy_repeat "0"%byte 64); reflexivity.
Qed.

(** C10. The digest field that loading the stored attributes returns has
    the width of the selected algorithm, 64 bytes for SHA-256 and 32 for MD5:
    it is the attribute value cut at the width, followed by ['0'] bytes for
    the positions a shorter value does not reach; without a readable
    attribute it is the zero digest. *)
Theorem stored_digest_has_algorithm_width
  (bMd5 : bool) (f : File) (w : World) :
  let attr := fst (fst (getStoredAttr bMd5 f w)) in
  List.length (digest bMd5 attr) = digest_width bMd5
  /\ digest bMd5 attr
     = match xattr_FGet f (digest_xattr bMd5) with
       | Success val =>
           firstn (digest_width bMd5) val
           ++ repeat "0"%byte (digest_width bMd5 - List.length val)
       | Failure _ => zero_digest bMd5
       end.
Proof.
  cbv zeta. rewrite getStoredAttr_digest. split; [|reflexivity].
  unfold stored_digest_of.
  destruct (xattr_FGet f (digest_xattr bMd5)) as [val|e].
  - rewrite length_app, length_firstn, repeat_length. lia.
  - now destruct bMd5.
Qed.

(** ** What the helpers do to the world *)

Lemma getStoredAttr_world (bMd5 : bool) (f : File) (w : World) :
  snd (getStoredAttr bMd5 f w) = emit_reads bMd5 w
  /\ snd (fst (getStoredAttr bMd5 f w)) = None.
Proof.
  destruct bMd5; unfold getStoredAttr, getStoredAttrMd5, getStoredAttrSha256,
    FGet; now split.
Qed.

Lemma getStoredAttr_any_world (bMd5 : bool) (f : File) (w w0 : World) :
  fst (fst (getStoredAttr bMd5 f w)) = fst (fst (getStoredAttr bMd5 f w0)).
Proof.
  destruct bMd5; reflexivity.
Qed.

Lemma new_events_app (w w' : World) (evs : list Event) :
  log w' = log w ++ evs -> new_events w w' = evs.
Proof.
  unfold new_events. intros ->.
  induction (log w) as [|e l IH]; simpl; [reflexivity | exact IH].
Qed.

Lemma getActualAttr_torn (md5_Sum sha256_Sum : list byte -> list byte)
  (bMd5 : bool) (f : File) (w : World) (before after : ModTime)
  (content : list byte) :
  Stat f (stat_calls w) = Success before ->
  io_Copy f = Success content ->
  Stat f (S (stat_calls w)) = Success after ->
  mtime_of before <> mtime_of after ->
  getActualAttr md5_Sum sha256_Sum bMd5 f w
  = (torn_attr bMd5 before, Some EINPROGRESS, after_hashing w).
Proof.
  intros H1 Hc H2 Hne. apply fileTimestamp_eqb_neq in Hne.
  destruct bMd5; unfold getActualAttr, getActualAttrMd5, getActualAttrSha256,
    getMtime, torn_attr, after_hashing;
    rewrite H1, Hc; cbn [stat_calls tick emit]; rewrite H2;
    cbn [tsMd5 ts set_tsMd5 set_ts]; now rewrite Hne.
Qed.

Lemma getActualAttr_steady (md5_Sum sha256_Sum : list byte -> list byte)
  (bMd5 : bool) (f : File) (w : World) :
  let r := getActualAttr md5_Sum sha256_Sum bMd5 f w in
  stats (snd r) = stats w
  /\ exists evs, log (snd r) = log w ++ evs
                 /\ forallb is_hashing evs = true.
Proof.
  cbv zeta.
  destruct bMd5; unfold getActualAttr, getActualAttrMd5, getActualAttrSha256,
    getMtime;
    destruct (Stat f (stat_calls w)) as [t1|e1];
    cbn [stat_calls tick emit snd fst stats log];
    try (split; [reflexivity | exists [EvStat]; now split]);
    destruct (io_Copy f) as [content|e2];
    cbn [stat_calls tick emit snd fst stats log];
    try (split; [reflexivity | exists [EvStat; EvCopy];
                 rewrite <- app_assoc; now split]);
    destruct (Stat f (S (stat_calls w))) as [t2|e3];
    cbn [stat_calls tick emit snd fst stats log];
    try destruct (negb _);
    cbn [stat_calls tick emit snd fst stats log];
    (split; [reflexivity | exists [EvStat; EvCopy; EvStat];
             rewrite <- !app_assoc; now split]).
Qed.

Lemma getStoredAttr_eta (bMd5 : bool) (f : File) (w : World) :
  getStoredAttr bMd5 f w
  = (fst (fst (getStoredAttr bMd5 f w)), None, emit_reads bMd5 w).
Proof.
  destruct (getStoredAttr_world bMd5 f w) as [Hw He].
  destruct (getStoredAttr bMd5 f w) as [[a e] w']. simpl in *. now subst.
Qed.

(** Rewrites [new_events w w'] in the goal into the events that the
    computed log of [w'] adds to the log of [w]. *)
Ltac new_events_of :=
  match goal with
  | |- context [new_events ?w ?w'] =>
      let E := fresh "E" in
      eassert (E : new_events w w' = _);
      [ apply new_events_app; unfold print_unless, printComparison,
          print_error, after_hashing, emit_reads;
        cbn [snd fst log count emit tick];
        rewrite <- ?app_assoc; reflexivity
      | rewrite E; clear E ]
  end.

(** ** Torn reads *)

(** C2. When the modification time seen after streaming the content
    differs from the one seen before, computing the actual attributes
    returns [EINPROGRESS] with a record that still carries the zero digest,
    and [checkFile] leaves through the concurrent-modification branch: no
    [storeAttr], and no counter moves but [total] and [inprogress]. *)
Theorem torn_read_is_concurrent_modification
  (md5_Sum sha256_Sum : list byte -> list byte)
  (os_Open : string -> result File) (g : Globals) (bMd5 : bool)
  (fn : string) (f : File) (w : World) (before after : ModTime)
  (content : list byte) :
  args_remove g = false ->
  gBOnlyFilename g = false ->
  os_Open fn = Success f ->
  Stat f (stat_calls w) = Success before ->
  io_Copy f = Success content ->
  Stat f (S (stat_calls w)) = Success after ->
  mtime_of before <> mtime_of after ->
  let r := getActualAttr md5_Sum sha256_Sum bMd5 f w in
  let c := checkFile md5_Sum sha256_Sum os_Open g bMd5 fn w in
  snd (fst r) = Some EINPROGRESS
  /\ digest bMd5 (fst (fst r)) = zero_digest bMd5
  /\ fst c = ConcurrentModification
  /\ filter is_store (new_events w (snd c)) = []
  /\ stats (snd c) = incr c_inprogress (incr c_total (stats w)).
Proof.
  intros Hrm Honly Hopen H1 Hc H2 Hne. cbv zeta.
  rewrite (getActualAttr_torn md5_Sum sha256_Sum bMd5 f w before after content)
    by assumption.
  split; [reflexivity|]. split; [now destruct bMd5|].
  unfold checkFile. rewrite Hopen, Hrm, getStoredAttr_eta, Honly.
  rewrite (getActualAttr_torn md5_Sum sha256_Sum bMd5 f _ before after content)
    by assumption.
  split; [reflexivity|]. split; [|now destruct (args_qq g)].
  destruct (args_qq g); new_events_of; reflexivity.
Qed.

Lemma torn_read_is_concurrent_modification_witness :
  let f := sample_file [] sample_mtime sample_mtime_later None in
  let g := flags false false false false false in
  let r := getActualAttr sample_md5_Sum sample_sha256_Sum true f fresh_world in
  let c := checkFile sample_md5_Sum sample_sha256_Sum (open_as f) g true
             "a.txt" fresh_world in
  snd (fst r) = Some EINPROGRESS
  /\ digest true (fst (fst r)) = zero_digest true
  /\ fst c = ConcurrentModification
  /\ filter is_store (new_events fresh_world (snd c)) = []
  /\ stats (snd c) = incr c_inprogress (incr c_total (stats fresh_world)).
Proof.
  apply (torn_read_is_concurrent_modification
           sample_md5_Sum sample_sha256_Sum
           (open_as (sample_file [] sample_mtime sample_mtime_later None))
           (flags false false false false false) true "a.txt"
           (sample_file [] sample_mtime sample_mtime_later None)
           fresh_world sample_mtime sample_mtime_later []);
    try reflexivity.
  vm_compute. intros H. discriminate H.
Defined.

(** ** The classification table *)

Lemma persist_verdict (g : Globals) (bMd5 : bool) (f : File)
  (stored actual : fileAttr) (v : Verdict) (w : World) :
  fst (persist g bMd5 f stored actual v w) = v.
Proof.
  unfold persist, storeAttr.
  now destruct (storeAttr_result f bMd5 actual).
Qed.

(** The verdict of a check that got as far as comparing. *)
Lemma checkFile_verdict
  (md5_Sum sha256_Sum : list byte -> list byte)
  (os_Open : string -> result File) (g : Globals) (bMd5 : bool)
  (fn : string) (w : World) (f : File) (stored actual : fileAttr)
  (e0 : option error) (w1 w2 : World) :
  args_remove g = false ->
  gBOnlyFilename g = false ->
  os_Open fn = Success f ->
  getStoredAttr bMd5 f (count c_total w) = (stored, e0, w1) ->
  getActualAttr md5_Sum sha256_Sum bMd5 f w1 = (actual, None, w2) ->
  fst (checkFile md5_Sum sha256_Sum os_Open g bMd5 fn w)
  = if fileTimestamp_eqb (stamp bMd5 stored) (stamp bMd5 actual) then
      if bytes.Equal (digest bMd5 stored) (digest bMd5 actual)
      then ok_or_demoted g bMd5 fn actual
      else Corrupt
    else if bytes.Equal (digest bMd5 stored) (digest bMd5 actual)
      then TimeChanged
    else if bytes.Equal (digest bMd5 stored) (zero_digest bMd5)
            && fileTimestamp_eqb (stamp bMd5 stored) zeroFileTimeStamp
      then New
    else Outdated.
Proof.
  intros Hrm Honly Hopen Hst Hact.
  unfold checkFile. rewrite Hopen, Hrm, Hst, Honly, Hact.
  rewrite timesMatch_stamp, checksumsMatch_digest, bytesMatchZero_digest,
    timesMatchZero_stamp.
  unfold ok_or_demoted.
  destruct (fileTimestamp_eqb (stamp bMd5 stored) (stamp bMd5 actual));
    destruct (bytes.Equal (digest bMd5 stored) (digest bMd5 actual));
    rewrite ?persist_verdict; try reflexivity.
  - now destruct (gBCheckFilename g && negb (checkFilename bMd5 fn actual)).
  - destruct (bytes.Equal _ _ && fileTimestamp_eqb _ _);
      now rewrite persist_verdict.
Qed.

(** C1, as amended. In a check with remove mode and filename-only mode off
    whose actual attributes were computed, the verdict follows the table
    over the selected algorithm's fields: timestamps equal and digests equal
    gives [Ok], or [FilenameNotMatched] when the filename is to be verified
    and its checksum is not the actual digest; timestamps equal and digests
    different gives [Corrupt]; timestamps different and digests equal gives
    [TimeChanged]; both different with a zero stored digest and a zero
    stored timestamp gives [New]; both different otherwise gives [Outdated].
    Each row holds exactly when its verdict is returned, so the rows exclude
    one another and cover every case. *)
Theorem classification_follows_table
  (md5_Sum sha256_Sum : list byte -> list byte)
  (os_Open : string -> result File) (g : Globals) (bMd5 : bool)
  (fn : string) (w : World) (f : File) (stored actual : fileAttr)
  (e0 : option error) (w1 w2 : World) :
  args_remove g = false ->
  gBOnlyFilename g = false ->
  os_Open fn = Success f ->
  getStoredAttr bMd5 f (count c_total w) = (stored, e0, w1) ->
  getActualAttr md5_Sum sha256_Sum bMd5 f w1 = (actual, None, w2) ->
  table (ok_or_demoted g bMd5 fn actual) bMd5 stored actual
    (fst (checkFile md5_Sum sha256_Sum os_Open g bMd5 fn w)).
Proof.
  intros Hrm Honly Hopen Hst Hact.
  rewrite (checkFile_verdict md5_Sum sha256_Sum os_Open g bMd5 fn w f
             stored actual e0 w1 w2) by assumption.
  assert (Hok : ok_or_demoted g bMd5 fn actual = Ok
                \/ ok_or_demoted g bMd5 fn actual = FilenameNotMatched).
  { unfold ok_or_demoted. destruct (_ && _); auto. }
  unfold table.
  destruct (fileTimestamp_eqb (stamp bMd5 stored) (stamp bMd5 actual)) eqn:ET;
    [apply fileTimestamp_eqb_eq in ET | apply fileTimestamp_eqb_neq in ET];
    (destruct (bytes.Equal (digest bMd5 stored) (digest bMd5 actual)) eqn:ED;
     [apply bytes_Equal_eq in ED | apply bytes_Equal_neq in ED]).
  - destruct Hok as [-> | ->]; repeat split; intros; try tauto;
      try discriminate.
  - repeat split; intros; try tauto; try discriminate;
      destruct Hok as [Hk | Hk]; rewrite Hk in *; discriminate.
  - repeat split; intros; try tauto; try discriminate;
      destruct Hok as [Hk | Hk]; rewrite Hk in *; discriminate.
  - destruct (bytes.Equal (digest bMd5 stored) (zero_digest bMd5)) eqn:EZ;
      [apply bytes_Equal_eq in EZ | apply bytes_Equal_neq in EZ];
      (destruct (fileTimestamp_eqb (stamp bMd5 stored) zeroFileTimeStamp)
         eqn:EZT;
       [apply fileTimestamp_eqb_eq in EZT
       | apply fileTimestamp_eqb_neq in EZT]);
      cbn [andb];
      repeat split; intros; try tauto; try discriminate;
      destruct Hok as [Hk | Hk]; rewrite Hk in *; discriminate.
Qed.

Lemma classification_follows_table_witness :
  let g := flags false false false false false in
  let stored := fst (fst (getStoredAttr false untagged_file
                            (count c_total fresh_world))) in
  let actual :=
    fst (fst (getActualAttr sample_md5_Sum sample_sha256_Sum false
                untagged_file
                (snd (getStoredAttr false untagged_file
                        (count c_total fresh_world))))) in
  table (ok_or_demoted g false "a.txt" actual) false stored actual
    (fst (checkFile sample_md5_Sum sample_sha256_Sum (open_as untagged_file)
            g false "a.txt" fresh_world)).
Proof.
  exact (classification_follows_table
           sample_md5_Sum sample_sha256_Sum (open_as untagged_file)
           (flags false false false false false) false "a.txt" fresh_world
           untagged_file _ _ _ _ _
           eq_refl eq_refl eq_refl eq_refl eq_refl).
Defined.

(** The table with a plain [Ok] in its first row fails on a file whose
    stored MD5 attributes are current while its name carries no checksum
    and filenames are to be verified: timestamps and digests match, the
    verdict is [FilenameNotMatched]. *)
Lemma classification_table_with_plain_Ok_fails :
  let g := flags false false false false true in
  let stored := fst (fst (getStoredAttr true tagged_md5_file
                            (count c_total fresh_world))) in
  let r := getActualAttr sample_md5_Sum sample_sha256_Sum true
             tagged_md5_file
             (snd (getStoredAttr true tagged_md5_file
                     (count c_total fresh_world))) in
  let actual := fst (fst r) in
  let v := fst (checkFile sample_md5_Sum sample_sha256_Sum
                  (open_as tagged_md5_file) g true "photo.jpg" fresh_world) in
  snd (fst r) = None
  /\ stamp true stored = stamp true actual
  /\ digest true stored = digest true actual
  /\ v = FilenameNotMatched
  /\ ~ table Ok true stored actual v.
Proof.
  cbv zeta. repeat split; try (vm_compute; reflexivity).
  intros [H _]. destruct H as [H _].
  assert (E : fst (checkFile sample_md5_Sum sample_sha256_Sum
                     (open_as tagged_md5_file)
                     (flags false false false false true) true
                     "photo.jpg" fresh_world) = FilenameNotMatched)
    by (vm_compute; reflexivity).
  rewrite E in H. discriminate H. split; vm_compute; reflexivity.
Qed.

(** ** When the attributes are written *)

Lemma hashing_filter_store (evs : list Event) :
  forallb is_hashing evs = true -> filter is_store evs = [].
Proof.
  induction evs as [|e evs IH]; simpl; [reflexivity|].
  rewrite andb_true_iff. intros [He H]. destruct e; try discriminate; auto.
Qed.

Lemma hashing_filter_output (evs : list Event) :
  forallb is_hashing evs = true -> filter is_output evs = [].
Proof.
  induction evs as [|e evs IH]; simpl; [reflexivity|].
  rewrite andb_true_iff. intros [He H]. destruct e; try discriminate; auto.
Qed.

Lemma hashing_In (evs : list Event) (e : Event) :
  forallb is_hashing evs = true -> In e evs -> is_hashing e = true.
Proof.
  rewrite forallb_forall. auto.
Qed.

(** Splits the result of [getActualAttr] into the attributes, the error and
    a world whose counters are the old ones and whose log is the old one
    followed by [Stat] and streaming events. *)
Ltac split_actual md5_Sum sha256_Sum bMd5 f w1 :=
  let Hs := fresh "Hstats" in
  let Hl := fresh "Hlog" in
  let Hh := fresh "Hhash" in
  let evs := fresh "evs" in
  let actual := fresh "actual" in
  let err := fresh "err" in
  let st := fresh "st" in
  let sc := fresh "sc" in
  let lg := fresh "lg" in
  destruct (getActualAttr_steady md5_Sum sha256_Sum bMd5 f w1)
    as [Hs [evs [Hl Hh]]];
  destruct (getActualAttr md5_Sum sha256_Sum bMd5 f w1)
    as [[actual err] [st sc lg]];
  cbn [snd stats log] in Hs, Hl; subst st lg.

Lemma get_incr_other (k c : Counter) (st : Stats) :
  k <> c -> get k (incr c st) = get k st.
Proof.
  destruct k, c; intros H; try reflexivity; now elim H.
Qed.

(** Decomposes a membership in a computed list of events. *)
Ltac split_In H Hhash :=
  repeat rewrite in_app_iff in H; cbn [In] in H;
  repeat match type of H with
         | _ \/ _ => destruct H as [H | H]
         end;
  try contradiction;
  try discriminate H;
  try (apply (hashing_In _ _ Hhash) in H; discriminate H).

Ltac store_leaf Hhash Hfs :=
  new_events_of; cbn [fst snd persists];
  split; [first [left; reflexivity | right; cbn [In]; tauto]|];
  split; [rewrite ?filter_app, Hfs; reflexivity|];
  split; [reflexivity|];
  split; [intros k Hk; cbn [stats count snd];
          rewrite ?(get_incr_other k c_errorsWritingXattr) by exact Hk;
          reflexivity|];
  let f0 := fresh "f" in
  let a := fresh "a" in
  let e := fresh "e" in
  let Ho := fresh "Hopen" in
  let Hin := fresh "Hin" in
  let Hres := fresh "Hres" in
  intros f0 a e Ho Hin Hres; injection Ho as <-;
  split_In Hin Hhash;
  injection Hin as <-;
  match goal with
  | E : storeAttr_result _ _ _ = _ |- _ =>
      tryif constr_eq E Hres then fail else rewrite E in Hres
  end;
  first [discriminate Hres | injection Hres as <-];
  (split;
   [ reflexivity
   | repeat rewrite in_app_iff; cbn [In error_text]; auto 20 ]).

(** C3. In a check with remove mode and filename-only mode off,
    [storeAttr] runs once when the verdict is [Corrupt], [TimeChanged],
    [New] or [Outdated] and not at all otherwise, that is for [Ok],
    [FilenameNotMatched], [ConcurrentModification] and the read and open
    errors.  A [storeAttr] that fails is reported on the error stream and
    counted in [errorsWritingXattr]; the verdict and every other counter are
    what they are when it succeeds. *)
Theorem store_runs_exactly_for_changed_verdicts
  (md5_Sum sha256_Sum : list byte -> list byte)
  (os_Open : string -> result File) (g : Globals) (bMd5 : bool)
  (fn : string) (w : World) :
  args_remove g = false ->
  gBOnlyFilename g = false ->
  let c := checkFile md5_Sum sha256_Sum os_Open g bMd5 fn w in
  let c' := checkFile md5_Sum sha256_Sum (open_with_store_ok os_Open) g bMd5
              fn w in
  (persists (fst c) = true
   \/ In (fst c) [Ok; FilenameNotMatched; ConcurrentModification;
                  ReadError; OpenError])
  /\ List.length (filter is_store (new_events w (snd c)))
     = (if persists (fst c) then 1%nat else 0%nat)
  /\ fst c = fst c'
  /\ (forall k, k <> c_errorsWritingXattr ->
                get k (stats (snd c)) = get k (stats (snd c')))
  /\ (forall f a e,
        os_Open fn = Success f ->
        In (EvStore bMd5 a) (new_events w (snd c)) ->
        storeAttr_result f bMd5 a = Some e ->
        errorsWritingXattr (stats (snd c)) = errorsWritingXattr (stats w) + 1
        /\ In (Stderr ("Error: " ++ e ++ nl)%string) (new_events w (snd c))).
Proof.
  intros Hrm Honly. cbv zeta.
  unfold checkFile, open_with_store_ok.
  destruct (os_Open fn) as [f|e0].
  2:{ new_events_of. cbn. repeat split; auto 10; discriminate. }
  rewrite Hrm.
  change (getStoredAttr bMd5 (with_store_ok f)) with (getStoredAttr bMd5 f).
  change (getActualAttr md5_Sum sha256_Sum bMd5 (with_store_ok f))
    with (getActualAttr md5_Sum sha256_Sum bMd5 f).
  rewrite getStoredAttr_eta, Honly.
  set (stored := fst (fst (getStoredAttr bMd5 f (count c_total w)))).
  split_actual md5_Sum sha256_Sum bMd5 f (emit_reads bMd5 (count c_total w)).
  apply hashing_filter_store in Hhash as Hfs.
  destruct err as [[|e1]|].
  - destruct (args_qq g); store_leaf Hhash Hfs.
  - store_leaf Hhash Hfs.
  - unfold persist, storeAttr.
    change (storeAttr_result (with_store_ok f) bMd5 actual) with (@None ioerr).
    cbn [option_map].
    destruct (timesMatch bMd5 stored actual);
      destruct (checksumsMatch bMd5 stored actual);
      try destruct (gBCheckFilename g && negb (checkFilename bMd5 fn actual));
      try destruct (bytesMatchZero bMd5 stored && timesMatchZero bMd5 stored);
      destruct (storeAttr_result f bMd5 actual) as [es|] eqn:Es;
      cbn [option_map];
      destruct (args_q g); destruct (args_qq g);
      store_leaf Hhash Hfs.
Qed.

Lemma store_runs_exactly_for_changed_verdicts_witness :
  let g := flags false false false false false in
  let c := checkFile sample_md5_Sum sample_sha256_Sum
             (open_as unwritable_file) g true "a.txt" fresh_world in
  let c' := checkFile sample_md5_Sum sample_sha256_Sum
              (open_with_store_ok (open_as unwritable_file)) g true "a.txt"
              fresh_world in
  (persists (fst c) = true
   \/ In (fst c) [Ok; FilenameNotMatched; ConcurrentModification;
                  ReadError; OpenError])
  /\ List.length (filter is_store (new_events fresh_world (snd c)))
     = (if persists (fst c) then 1%nat else 0%nat)
  /\ fst c = fst c'
  /\ (forall k, k <> c_errorsWritingXattr ->
                get k (stats (snd c)) = get k (stats (snd c')))
  /\ (forall f a e,
        open_as unwritable_file "a.txt" = Success f ->
        In (EvStore true a) (new_events fresh_world (snd c)) ->
        storeAttr_result f true a = Some e ->
        errorsWritingXattr (stats (snd c))
        = errorsWritingXattr (stats fresh_world) + 1
        /\ In (Stderr ("Error: " ++ e ++ nl)%string)
              (new_events fresh_world (snd c))).
Proof.
  exact (store_runs_exactly_for_changed_verdicts
           sample_md5_Sum sample_sha256_Sum (open_as unwritable_file)
           (flags false false false false false) true "a.txt" fresh_world
           eq_refl eq_refl).
Defined.

Example unwritable_file_is_New_and_counted :
  let c := checkFile sample_md5_Sum sample_sha256_Sum
             (open_as unwritable_file)
             (flags false false false false false) true "a.txt"
             fresh_world in
  fst c = New
  /\ newfile (stats (snd c)) = 1
  /\ errorsWritingXattr (stats (snd c)) = 1.
Proof. vm_compute. repeat split. Qed.

(** ** Verdicts and counters *)

(** X16. The verdict the model returns is the branch the counters show: a check
    counts the file in [total] and in the counter of its verdict, and in
    nothing else but [errorsWritingXattr]. *)
Lemma verdict_is_counted
  (md5_Sum sha256_Sum : list byte -> list byte)
  (os_Open : string -> result File) (g : Globals) (bMd5 : bool)
  (fn : string) (w : World) (k : Counter) :
  k <> c_errorsWritingXattr ->
  let c := checkFile md5_Sum sha256_Sum os_Open g bMd5 fn w in
  get k (stats (snd c))
  = get k (match counter_of (fst c) with
           | Some k' => incr k' (incr c_total (stats w))
           | None => incr c_total (stats w)
           end).
Proof.
  intros Hk. cbv zeta. unfold checkFile.
  destruct (os_Open fn) as [f|e0]; [|reflexivity].
  destruct (args_remove g).
  { unfold removeAttr. destruct (removeAttr_result f); cbn [option_map];
      [reflexivity | now destruct (args_q g)]. }
  rewrite getStoredAttr_eta.
  set (stored := fst (fst (getStoredAttr bMd5 f (count c_total w)))).
  destruct (gBOnlyFilename g).
  { destruct (checkFilename bMd5 fn stored);
      [now destruct (args_q g) | now destruct (args_qq g)]. }
  split_actual md5_Sum sha256_Sum bMd5 f (emit_reads bMd5 (count c_total w)).
  unfold persist, storeAttr.
  destruct err as [[|e1]|];
    try destruct (timesMatch bMd5 stored actual);
    try destruct (checksumsMatch bMd5 stored actual);
    try destruct (gBCheckFilename g && negb (checkFilename bMd5 fn actual));
    try destruct (bytesMatchZero bMd5 stored && timesMatchZero bMd5 stored);
    try destruct (storeAttr_result f bMd5 actual) as [es|];
    cbn [option_map];
    destruct (args_q g); destruct (args_qq g);
    cbn [fst snd counter_of stats count];
    rewrite ?(get_incr_other k c_errorsWritingXattr) by exact Hk;
    reflexivity.
Qed.

(** ** Filename modes *)

(** C7. With the filename-only flag set (and remove mode off) the check
    compares the checksum taken from the filename, byte for byte, with the
    stored digest of the selected algorithm; it neither asks for the
    modification time nor streams the content, its result does not depend on
    the digest functions, and it never calls [storeAttr], whether the
    comparison matches or not. *)
Theorem filename_only_compares_with_stored_digest
  (md5_Sum sha256_Sum : list byte -> list byte)
  (os_Open : string -> result File) (g : Globals) (bMd5 : bool)
  (fn : string) (f : File) (w : World) :
  args_remove g = false ->
  gBOnlyFilename g = true ->
  os_Open fn = Success f ->
  let c := checkFile md5_Sum sha256_Sum os_Open g bMd5 fn w in
  let stored := fst (fst (getStoredAttr bMd5 f w)) in
  (fst c = if bytes.Equal (filename_checksum bMd5 fn) (digest bMd5 stored)
           then FilenameOnlyOk else FilenameOnlyMismatch)
  /\ (fst c = FilenameOnlyOk
      <-> filename_checksum bMd5 fn = digest bMd5 stored)
  /\ filter is_hashing (new_events w (snd c)) = []
  /\ stat_calls (snd c) = stat_calls w
  /\ filter is_store (new_events w (snd c)) = []
  /\ (forall md5_Sum' sha256_Sum',
        checkFile md5_Sum' sha256_Sum' os_Open g bMd5 fn w = c).
Proof.
  intros Hrm Honly Hopen. cbv zeta.
  unfold checkFile. rewrite Hopen, Hrm, getStoredAttr_eta, Honly.
  rewrite checkFilename_digest.
  rewrite (getStoredAttr_any_world bMd5 f (count c_total w) w).
  fold (filename_checksum bMd5 fn).
  destruct (bytes.Equal (filename_checksum bMd5 fn)
              (digest bMd5 (fst (fst (getStoredAttr bMd5 f w))))) eqn:E;
    [apply bytes_Equal_eq in E | apply bytes_Equal_neq in E];
    destruct (args_q g); destruct (args_qq g);
    new_events_of; cbn [fst snd];
    repeat split; intros; try reflexivity; try assumption;
    try discriminate; try contradiction.
Qed.

Lemma filename_only_compares_with_stored_digest_witness :
  let g := flags false false false true false in
  let fn := "IMG_d41d8cd98f00b204e9800998ecf8427e.jpg" in
  let c := checkFile sample_md5_Sum sample_sha256_Sum
             (open_as tagged_md5_file) g true fn fresh_world in
  let stored := fst (fst (getStoredAttr true tagged_md5_file fresh_world)) in
  (fst c = if bytes.Equal (filename_checksum true fn) (digest true stored)
           then FilenameOnlyOk else FilenameOnlyMismatch)
  /\ (fst c = FilenameOnlyOk
      <-> filename_checksum true fn = digest true stored)
  /\ filter is_hashing (new_events fresh_world (snd c)) = []
  /\ stat_calls (snd c) = stat_calls fresh_world
  /\ filter is_store (new_events fresh_world (snd c)) = []
  /\ (forall md5_Sum' sha256_Sum',
        checkFile md5_Sum' sha256_Sum' (open_as tagged_md5_file) g true fn
          fresh_world = c).
Proof.
  exact (filename_only_compares_with_stored_digest
           sample_md5_Sum sample_sha256_Sum (open_as tagged_md5_file)
           (flags false false false true false) true
           "IMG_d41d8cd98f00b204e9800998ecf8427e.jpg" tagged_md5_file
           fresh_world eq_refl eq_refl eq_refl).
Defined.

Example filename_only_accepts_named_by_digest :
  fst (checkFile sample_md5_Sum sample_sha256_Sum (open_as tagged_md5_file)
         (flags false false false true false) true
         "IMG_d41d8cd98f00b204e9800998ecf8427e.jpg" fresh_world)
  = FilenameOnlyOk.
Proof. vm_compute. reflexivity. Qed.

(** C8, as amended. When stored and actual timestamps match, stored and
    actual digests match, filenames are to be verified and the checksum in
    the filename is not the actual digest, the verdict is
    [FilenameNotMatched] instead of [Ok]: the [ok] counter does not move
    (no counter but [total] does), [storeAttr] is not called, and the
    verdict is printed with the comparison unless the quiet flag [args.q] is
    set, in which case nothing is printed. *)
Theorem filename_mismatch_demotes_ok
  (md5_Sum sha256_Sum : list byte -> list byte)
  (os_Open : string -> result File) (g : Globals) (bMd5 : bool)
  (fn : string) (w : World) (f : File) (stored actual : fileAttr)
  (e0 : option error) (w1 w2 : World) :
  args_remove g = false ->
  gBOnlyFilename g = false ->
  os_Open fn = Success f ->
  getStoredAttr bMd5 f (count c_total w) = (stored, e0, w1) ->
  getActualAttr md5_Sum sha256_Sum bMd5 f w1 = (actual, None, w2) ->
  stamp bMd5 stored = stamp bMd5 actual ->
  digest bMd5 stored = digest bMd5 actual ->
  gBCheckFilename g = true ->
  filename_checksum bMd5 fn <> digest bMd5 actual ->
  let c := checkFile md5_Sum sha256_Sum os_Open g bMd5 fn w in
  fst c = FilenameNotMatched
  /\ stats (snd c) = incr c_total (stats w)
  /\ ok (stats (snd c)) = ok (stats w)
  /\ filter is_store (new_events w (snd c)) = []
  /\ filter is_output (new_events w (snd c))
     = if args_q g then [] else not_matched_report fn stored actual.
Proof.
  intros Hrm Honly Hopen Hst Hact HT HD Hchk Hfn. cbv zeta.
  apply fileTimestamp_eqb_eq in HT. apply bytes_Equal_eq in HD.
  apply bytes_Equal_neq in Hfn.
  pose proof (getStoredAttr_world bMd5 f (count c_total w)) as [Hw1 _].
  rewrite Hst in Hw1. cbn [snd] in Hw1. subst w1.
  pose proof (getActualAttr_steady md5_Sum sha256_Sum bMd5 f
                (emit_reads bMd5 (count c_total w))) as Hs.
  cbv zeta in Hs. rewrite Hact in Hs. cbn [snd] in Hs.
  destruct Hs as [Hstats [evs [Hlog Hhash]]].
  destruct w2 as [st sc lg]. cbn [stats log] in Hstats, Hlog. subst st lg.
  unfold checkFile. rewrite Hopen, Hrm, Hst, Honly, Hact.
  rewrite timesMatch_stamp, checksumsMatch_digest, HT, HD, Hchk.
  rewrite checkFilename_digest. fold (filename_checksum bMd5 fn).
  rewrite Hfn. cbn [negb andb].
  pose proof (hashing_filter_store _ Hhash) as Hfs.
  pose proof (hashing_filter_output _ Hhash) as Hfo.
  destruct (args_q g); new_events_of; cbn [fst snd stats];
    rewrite ?filter_app, Hfs, Hfo; repeat split.
Qed.

(** A file whose stored MD5 attributes are current, under a name that does
    not carry its digest. *)
Lemma filename_mismatch_demotes_ok_witness :
  let g := flags false false false false true in
  let stored := fst (fst (getStoredAttr true tagged_md5_file
                            (count c_total fresh_world))) in
  let actual :=
    fst (fst (getActualAttr sample_md5_Sum sample_sha256_Sum true
                tagged_md5_file
                (snd (getStoredAttr true tagged_md5_file
                        (count c_total fresh_world))))) in
  let c := checkFile sample_md5_Sum sample_sha256_Sum
             (open_as tagged_md5_file) g true "photo.jpg" fresh_world in
  fst c = FilenameNotMatched
  /\ stats (snd c) = incr c_total (stats fresh_world)
  /\ ok (stats (snd c)) = ok (stats fresh_world)
  /\ filter is_store (new_events fresh_world (snd c)) = []
  /\ filter is_output (new_events fresh_world (snd c))
     = if args_q g then [] else not_matched_report "photo.jpg" stored actual.
Proof.
  apply (filename_mismatch_demotes_ok
           sample_md5_Sum sample_sha256_Sum (open_as tagged_md5_file)
           (flags false false false false true) true "photo.jpg" fresh_world
           tagged_md5_file _ _ _ _ _
           eq_refl eq_refl eq_refl eq_refl eq_refl);
    try reflexivity.
  vm_compute. intros H. discriminate H.
Defined.

(** With the quiet flag set the demoted verdict leaves no line on either
    stream: the same file and name as above, checked with [args.q]. *)
Lemma quiet_filename_mismatch_is_not_reported :
  let g := flags false true false false true in
  let stored := fst (fst (getStoredAttr true tagged_md5_file
                            (count c_total fresh_world))) in
  let r := getActualAttr sample_md5_Sum sample_sha256_Sum true
             tagged_md5_file
             (snd (getStoredAttr true tagged_md5_file
                     (count c_total fresh_world))) in
  let actual := fst (fst r) in
  let c := checkFile sample_md5_Sum sample_sha256_Sum
             (open_as tagged_md5_file) g true "photo.jpg" fresh_world in
  snd (fst r) = None
  /\ stamp true stored = stamp true actual
  /\ digest true stored = digest true actual
  /\ filename_checksum true "photo.jpg" <> digest true actual
  /\ fst c = FilenameNotMatched
  /\ filter is_output (new_events fresh_world (snd c)) = [].
Proof.
  cbv zeta. repeat split; try (vm_compute; reflexivity).
  vm_compute. intros H. discriminate H.
Qed.

(** ** Algorithm isolation *)

Lemma getStoredAttr_reads_own (bMd5 : bool) (f1 f2 : File) (w : World) :
  xattr_FGet f1 (digest_xattr bMd5) = xattr_FGet f2 (digest_xattr bMd5) ->
  xattr_FGet f1 (stamp_xattr bMd5) = xattr_FGet f2 (stamp_xattr bMd5) ->
  getStoredAttr bMd5 f1 w = getStoredAttr bMd5 f2 w.
Proof.
  destruct bMd5; unfold getStoredAttr, getStoredAttrMd5, getStoredAttrSha256,
    FGet, digest_xattr, stamp_xattr; now intros -> ->.
Qed.

Lemma own_xattrs_not_other (bMd5 : bool) :
  ~ In (digest_xattr bMd5) (other_xattrs bMd5)
  /\ ~ In (stamp_xattr bMd5) (other_xattrs bMd5).
Proof.
  destruct bMd5; split; cbn; intros [H | [H | []]]; discriminate H.
Qed.

Lemma getActualAttr_same_file
  (md5_Sum sha256_Sum : list byte -> list byte) (bMd5 : bool)
  (f1 f2 : File) (w : World) :
  Stat f1 = Stat f2 -> io_Copy f1 = io_Copy f2 ->
  getActualAttr md5_Sum sha256_Sum bMd5 f1 w
  = getActualAttr md5_Sum sha256_Sum bMd5 f2 w.
Proof.
  destruct bMd5; unfold getActualAttr, getActualAttrMd5, getActualAttrSha256,
    getMtime; now intros -> ->.
Qed.

(** C9. Two checks under the same algorithm, on files that differ only in
    the extended attributes of the other algorithm, end alike: same verdict,
    same counters, same log.  The only attributes a check reads are the
    digest and timestamp attributes of the selected algorithm.  (Remove mode
    is not a check and is left out.) *)
Theorem other_algorithm_attributes_do_not_interfere
  (md5_Sum sha256_Sum : list byte -> list byte)
  (os_Open1 os_Open2 : string -> result File) (g : Globals) (bMd5 : bool)
  (fn : string) (w : World) :
  args_remove g = false ->
  opened_alike (other_xattrs bMd5) (os_Open1 fn) (os_Open2 fn) ->
  let c1 := checkFile md5_Sum sha256_Sum os_Open1 g bMd5 fn w in
  let c2 := checkFile md5_Sum sha256_Sum os_Open2 g bMd5 fn w in
  c1 = c2
  /\ forall name, In (EvFGet name) (new_events w (snd c1)) ->
                  name = digest_xattr bMd5 \/ name = stamp_xattr bMd5.
Proof.
  intros Hrm Halike. cbv zeta. split.
  - unfold checkFile. unfold opened_alike in Halike.
    destruct (os_Open1 fn) as [f1|e1], (os_Open2 fn) as [f2|e2];
      try contradiction; [|now subst].
    destruct Halike as (Hx & HS & HC & Hst & _).
    destruct (own_xattrs_not_other bMd5) as [Hd Ht].
    rewrite Hrm.
    rewrite (getStoredAttr_reads_own bMd5 f1 f2) by (apply Hx; assumption).
    destruct (getStoredAttr bMd5 f2 (count c_total w)) as [[stored e0] w1].
    rewrite (getActualAttr_same_file md5_Sum sha256_Sum bMd5 f1 f2)
      by assumption.
    unfold persist, storeAttr. now rewrite Hst.
  - unfold checkFile.
    destruct (os_Open1 fn) as [f|e].
    2:{ new_events_of. intros name Hin. split_In Hin (@eq_refl bool true). }
    rewrite Hrm, getStoredAttr_eta.
    set (stored := fst (fst (getStoredAttr bMd5 f (count c_total w)))).
    destruct (gBOnlyFilename g).
    + destruct (checkFilename bMd5 fn stored);
        destruct (args_q g); destruct (args_qq g);
        new_events_of; intros name Hin;
        split_In Hin (@eq_refl bool true);
        injection Hin as <-; auto.
    + split_actual md5_Sum sha256_Sum bMd5 f
        (emit_reads bMd5 (count c_total w)).
      unfold persist, storeAttr.
      destruct err as [[|e1]|];
        try destruct (timesMatch bMd5 stored actual);
        try destruct (checksumsMatch bMd5 stored actual);
        try destruct (gBCheckFilename g
                      && negb (checkFilename bMd5 fn actual));
        try destruct (bytesMatchZero bMd5 stored
                      && timesMatchZero bMd5 stored);
        try destruct (storeAttr_result f bMd5 actual) as [es|];
        cbn [option_map];
        destruct (args_q g); destruct (args_qq g);
        new_events_of; intros name Hin;
        split_In Hin Hhash;
        injection Hin as <-; auto.
Qed.

Lemma other_algorithm_attributes_do_not_interfere_witness :
  let g := flags false false false false false in
  let c1 := checkFile sample_md5_Sum sample_sha256_Sum
              (open_as sha_tagged_file) g false "a.txt" fresh_world in
  let c2 := checkFile sample_md5_Sum sample_sha256_Sum
              (open_as sha_and_md5_tagged_file) g false "a.txt"
              fresh_world in
  c1 = c2
  /\ forall name, In (EvFGet name) (new_events fresh_world (snd c1)) ->
                  name = digest_xattr false \/ name = stamp_xattr false.
Proof.
  apply (other_algorithm_attributes_do_not_interfere
           sample_md5_Sum sample_sha256_Sum
           (open_as sha_tagged_file) (open_as sha_and_md5_tagged_file)
           (flags false false false false false) false "a.txt" fresh_world).
  - reflexivity.
  - repeat split. intros name Hn.
    cbn [xattr_FGet sha_tagged_file sha_and_md5_tagged_file sample_file
           lookup_xattr].
    destruct (String.eqb_spec xattrMd5 name) as [E|_];
      [exfalso; apply Hn; left; exact E|].
    destruct (String.eqb_spec xattrTsMd5 name) as [E|_];
      [exfalso; apply Hn; right; left; exact E|].
    reflexivity.
Defined.

(** ** Decimal text *)

Lemma code_digit_char (d : Z) :
  0 <= d <= 9 -> code (fmt.digit_char d) = 48 + d.
Proof.
  intros H. unfold code, fmt.digit_char.
  rewrite N_ascii_embedding by lia. lia.
Qed.

Lemma digit_of_digit (c : Z) :
  48 <= c <= 57 -> strconv.digit_of c = Some (c - 48).
Proof.
  intros H. unfold strconv.digit_of.
  destruct (Z.leb_spec 48 c); [|lia].
  destruct (Z.leb_spec c 57); [reflexivity|lia].
Qed.

Lemma all_digits_app (a b : string) :
  all_digits (a ++ b) <-> all_digits a /\ all_digits b.
Proof.
  induction a as [|c a IH]; simpl; [tauto|]. rewrite IH. tauto.
Qed.

Lemma value_of_app (acc : Z) (a b : string) :
  value_of acc (a ++ b) = value_of (value_of acc a) b.
Proof.
  revert acc; induction a as [|c a IH]; intros acc; simpl; [reflexivity|].
  apply IH.
Qed.

Lemma value_of_ge (acc : Z) (str : string) :
  0 <= acc -> all_digits str -> acc <= value_of acc str.
Proof.
  revert acc; induction str as [|c str IH]; intros acc Hacc H;
    cbn [all_digits value_of] in *.
  - lia.
  - destruct H as [Hc H].
    specialize (IH (acc * 10 + (code c - 48)) ltac:(lia) H). lia.
Qed.

Lemma zeros_digits (n : nat) : all_digits (fmt.zeros n).
Proof.
  induction n as [|n IH]; simpl; [exact I|]. split; [|exact IH].
  vm_compute. split; discriminate.
Qed.

Lemma value_of_zeros (n : nat) : value_of 0 (fmt.zeros n) = 0.
Proof.
  induction n as [|n IH]; simpl; [reflexivity | exact IH].
Qed.

Lemma append_assoc (a b c : string) :
  ((a ++ b) ++ c = a ++ (b ++ c))%string.
Proof.
  induction a as [|x a IH]; simpl; [reflexivity | now rewrite IH].
Qed.

Lemma append_nonempty (a b : string) :
  b <> EmptyString -> (a ++ b)%string <> EmptyString.
Proof.
  destruct a; [exact (fun H => H) | discriminate].
Qed.

Lemma fmt_u_buf (fuel : nat) (u : Z) (buf : string) :
  fmt.fmt_u fuel u buf = (fmt.fmt_u fuel u EmptyString ++ buf)%string.
Proof.
  revert u buf; induction fuel as [|fuel IH]; intros u buf; simpl.
  - reflexivity.
  - destruct (10 <=? u); [|reflexivity].
    rewrite IH, (IH _ (String _ EmptyString)).
    now rewrite append_assoc.
Qed.

Lemma fmt_u_S (fuel : nat) (u : Z) (buf : string) :
  fmt.fmt_u (S fuel) u buf
  = if 10 <=? u
    then fmt.fmt_u fuel (u / 10)
           (String (fmt.digit_char (u - u / 10 * 10)) buf)
    else String (fmt.digit_char u) buf.
Proof. reflexivity. Qed.

(** The digit loop spells its argument, in at least one digit. *)
Lemma fmt_u_spells (fuel : nat) (u : Z) :
  0 <= u < 10 ^ Z.of_nat (S fuel) ->
  all_digits (fmt.fmt_u (S fuel) u EmptyString)
  /\ value_of 0 (fmt.fmt_u (S fuel) u EmptyString) = u
  /\ fmt.fmt_u (S fuel) u EmptyString <> EmptyString.
Proof.
  revert u; induction fuel as [|fuel IH]; intros u Hu; rewrite fmt_u_S;
    destruct (Z.leb_spec 10 u) as [H10|H10].
  - change (10 ^ Z.of_nat 1) with 10 in Hu. lia.
  - cbn [all_digits value_of]. rewrite code_digit_char by lia.
    repeat split; try lia. discriminate.
  - rewrite fmt_u_buf.
    assert (Hq : 0 <= u / 10 < 10 ^ Z.of_nat (S fuel)).
    { split; [apply Z.div_pos; lia|].
      apply Z.div_lt_upper_bound; [lia|].
      rewrite (Nat2Z.inj_succ (S fuel)), Z.pow_succ_r in Hu by lia. lia. }
    destruct (IH _ Hq) as (Hd & Hv & Hne).
    assert (Hr : 0 <= u - u / 10 * 10 <= 9).
    { pose proof (Z.mod_pos_bound u 10 ltac:(lia)).
      pose proof (Z.div_mod u 10 ltac:(lia)). lia. }
    split; [|split].
    + apply all_digits_app. split; [exact Hd|].
      cbn [all_digits]. rewrite code_digit_char by exact Hr. lia.
    + rewrite value_of_app, Hv. cbn [value_of].
      rewrite code_digit_char by exact Hr. lia.
    + destruct (fmt.fmt_u (S fuel) (u / 10) EmptyString);
        [now elim Hne | discriminate].
  - cbn [all_digits value_of]. rewrite code_digit_char by lia.
    repeat split; try lia. discriminate.
Qed.

Lemma Sprintf_0d_spells (width : nat) (u : Z) :
  0 <= u < 2 ^ 64 ->
  all_digits (fmt.Sprintf_0d width u)
  /\ value_of 0 (fmt.Sprintf_0d width u) = u
  /\ fmt.Sprintf_0d width u <> EmptyString.
Proof.
  intros Hu. unfold fmt.Sprintf_0d.
  destruct (fmt_u_spells 19 u) as (Hd & Hv & Hne).
  { change (10 ^ Z.of_nat 20) with 100000000000000000000.
    change (2 ^ 64) with 18446744073709551616 in Hu. lia. }
  split; [|split].
  - apply all_digits_app. split; [apply zeros_digits | exact Hd].
  - now rewrite value_of_app, value_of_zeros.
  - now apply append_nonempty.
Qed.

(** On a text of digits whose value fits, the parsing loop returns the
    value and no error. *)
Lemma ParseUint_loop_digits (maxVal n : Z) (str : string) :
  maxVal <= maxUint64 ->
  0 <= n ->
  all_digits str ->
  value_of n str <= maxVal ->
  strconv.ParseUint_loop 10 maxVal (maxUint64 / 10 + 1) n str
  = (value_of n str, None).
Proof.
  intros Hmax. revert n; induction str as [|c str IH]; intros n Hn Hd Hv.
  - reflexivity.
  - destruct Hd as [Hc Hd]. cbn [strconv.ParseUint_loop value_of] in *.
    rewrite digit_of_digit by exact Hc.
    set (d := code c - 48) in *.
    assert (Hstep : n * 10 + d <= maxVal).
    { pose proof (value_of_ge (n * 10 + d) str ltac:(lia) Hd). lia. }
    unfold maxUint64 in *.
    change (2 ^ 64 - 1) with 18446744073709551615 in *.
    change (18446744073709551615 / 10 + 1) with 1844674407370955162 in *.
    destruct (Z.geb_spec d 10) as [?|_]; [lia|].
    destruct (Z.geb_spec n 1844674407370955162) as [?|_]; [lia|].
    unfold wrap64. change (2 ^ 64) with 18446744073709551616.
    rewrite (Z.mod_small (n * 10)) by lia.
    rewrite (Z.mod_small (n * 10 + d)) by lia.
    destruct (Z.ltb_spec (n * 10 + d) (n * 10)) as [?|_]; [lia|].
    destruct (Z.gtb_spec (n * 10 + d) maxVal) as [?|_]; [lia|].
    cbn [orb]. apply IH; [lia | exact Hd | exact Hv].
Qed.

Lemma ParseUint_Sprintf_0d (width : nat) (u bitSize : Z) :
  (bitSize = 64 \/ bitSize = 32) ->
  0 <= u < 2 ^ bitSize ->
  strconv.ParseUint (fmt.Sprintf_0d width u) 10 bitSize = (u, None).
Proof.
  intros Hb Hu.
  assert (Hu64 : 0 <= u < 2 ^ 64).
  { destruct Hb as [-> | ->]; [exact Hu|].
    change (2 ^ 32) with 4294967296 in Hu.
    change (2 ^ 64) with 18446744073709551616. lia. }
  destruct (Sprintf_0d_spells width u Hu64) as (Hd & Hv & Hne).
  unfold strconv.ParseUint.
  destruct (String.eqb_spec (fmt.Sprintf_0d width u) "") as [E|_];
    [now elim Hne|].
  rewrite ParseUint_loop_digits; try assumption; try lia.
  - now rewrite Hv.
  - destruct Hb as [-> | ->]; vm_compute; discriminate.
  - rewrite Hv. destruct Hb as [-> | ->].
    + change (wrap64 (wrap64 (Z.shiftl 1 64) - 1)) with (2 ^ 64 - 1). lia.
    + change (wrap64 (wrap64 (Z.shiftl 1 32) - 1)) with (2 ^ 32 - 1). lia.
Qed.

Lemma Cut_after_digits (a b : string) :
  all_digits a -> strings.Cut (a ++ String "." b) "." = Some (a, b).
Proof.
  induction a as [|c a IH]; intros H.
  - reflexivity.
  - destruct H as [Hc H]. cbn [append strings.Cut].
    destruct (Ascii.eqb_spec c ".") as [->|_].
    + vm_compute in Hc. destruct Hc as [Hc _]. now elim Hc.
    + now rewrite IH.
Qed.

Lemma SplitN_prettyPrint (t : fileTimestamp) :
  is_uint64 (s t) ->
  strings.SplitN
    (string_of_list_byte (list_byte_of_string (fileTimestamp_prettyPrint t)))
    "." 2
  = [fmt.Sprintf_0d 10 (s t); fmt.Sprintf_0d 9 (ns t)].
Proof.
  intros Hs. rewrite string_of_list_byte_of_string.
  unfold fileTimestamp_prettyPrint.
  change ("." ++ fmt.Sprintf_0d 9 (ns t))%string
    with (String "." (fmt.Sprintf_0d 9 (ns t))).
  cbn [strings.SplitN].
  rewrite Cut_after_digits; [reflexivity|].
  now apply Sprintf_0d_spells.
Qed.

(** ** The timestamp text codec *)

(** C5. For every timestamp with [s] a [uint64] and [ns] a [uint32], zero
    included, loading a timestamp attribute that holds the canonical text
    ["%010d.%09d"] of the timestamp gives the timestamp back, under either
    algorithm. *)
Theorem timestamp_text_round_trip
  (t : fileTimestamp) (bMd5 : bool) (f : File) (w : World) :
  is_uint64 (s t) ->
  is_uint32 (ns t) ->
  xattr_FGet f (stamp_xattr bMd5)
  = Success (list_byte_of_string (fileTimestamp_prettyPrint t)) ->
  stamp bMd5 (fst (fst (getStoredAttr bMd5 f w))) = t.
Proof.
  intros Hs Hns Hx.
  assert (Es : strconv.ParseUint (fmt.Sprintf_0d 10 (s t)) 10 64 = (s t, None))
    by (apply ParseUint_Sprintf_0d; [now left | exact Hs]).
  assert (En : strconv.ParseUint (fmt.Sprintf_0d 9 (ns t)) 10 32 = (ns t, None))
    by (apply ParseUint_Sprintf_0d; [now right | exact Hns]).
  assert (Ew : wrap32 (ns t) = ns t) by (apply Z.mod_small; exact Hns).
  destruct bMd5; unfold getStoredAttr, getStoredAttrMd5, getStoredAttrSha256,
    FGet, stamp, stamp_xattr in *; rewrite Hx;
    rewrite SplitN_prettyPrint by exact Hs; rewrite Es, En;
    cbn [fst]; rewrite Ew.
  - destruct (xattr_FGet f xattrMd5); destruct t; reflexivity.
  - destruct (xattr_FGet f xattrSha256); destruct t; reflexivity.
Qed.

Lemma timestamp_text_round_trip_witness :
  stamp true (fst (fst (getStoredAttr true tagged_md5_file fresh_world)))
  = mtime_of sample_mtime.
Proof.
  apply (timestamp_text_round_trip (mtime_of sample_mtime) true
           tagged_md5_file fresh_world).
  - vm_compute. split; [discriminate | reflexivity].
  - vm_compute. split; [discriminate | reflexivity].
  - reflexivity.
Defined.

Example prettyPrint_sample :
  fileTimestamp_prettyPrint (mtime_of sample_mtime) = "1560177334.020775051".
Proof. reflexivity. Qed.

Example prettyPrint_zero :
  fileTimestamp_prettyPrint zeroFileTimeStamp = "0000000000.000000000".
Proof. reflexivity. Qed.

Example prettyPrint_largest :
  fileTimestamp_prettyPrint {| s := 2 ^ 64 - 1; ns := 2 ^ 32 - 1 |}
  = "18446744073709551615.4294967295".
Proof. reflexivity. Qed.

(** ** Loading stored attributes *)

Lemma SplitN_two (str : string) (sep : ascii) :
  strings.SplitN str sep 2
  = match strings.Cut str sep with
    | Some (a, b) => [a; b]
    | None => [str]
    end.
Proof. cbn [strings.SplitN]. now destruct (strings.Cut str sep) as [[a b]|]. Qed.








Example malformed_fields_load_as_zero :
  stamp true
    (fst (fst (getStoredAttr true
                 (sample_file [(xattrTsMd5, "12a4.-7")]
                    sample_mtime sample_mtime None)
                 fresh_world)))
  = zeroFileTimeStamp.
Proof. vm_compute. reflexivity. Qed.

Example missing_nanoseconds_load_as_zero :
  stamp true
    (fst (fst (getStoredAttr true
                 (sample_file [(xattrTsMd5, "1560177334")]
                    sample_mtime sample_mtime None)
                 fresh_world)))
  = {| s := 1560177334; ns := 0 |}.
Proof. vm_compute. reflexivity. Qed.

(** ** The filename checksum extractor *)

Lemma in_class_hex (n : nat) (c : ascii) :
  regexp.in_class (hex_times n) c = is_hex c.
Proof.
  unfold regexp.in_class, is_hex. cbn.
  now destruct (byte_in "0" "9" c), (byte_in "a" "f" c), (byte_in "A" "F" c).
Qed.

Lemma substring_0_0 (str : string) : substring 0 0 str = EmptyString.
Proof. now destruct str. Qed.

(** A match of [k] digits at the start is the first [k] bytes of the
    longest hexadecimal prefix, when that prefix has [k] bytes. *)
Lemma match_here_hex (n k : nat) (str : string) :
  regexp.match_here (hex_times n) k str
  = if Nat.leb k (String.length (hex_prefix str))
    then Some (substring 0 k (hex_prefix str))
    else None.
Proof.
  revert str; induction k as [|k IH]; intros str.
  - cbn [regexp.match_here Nat.leb]. now rewrite substring_0_0.
  - destruct str as [|c str]; [reflexivity|].
    cbn [regexp.match_here hex_prefix]. rewrite in_class_hex.
    destruct (is_hex c); [|reflexivity].
    rewrite IH. cbn [String.length Nat.leb substring].
    now destruct (Nat.leb k (String.length (hex_prefix str))).
Qed.

Lemma hex_prefix_not_started (str : string) :
  starts_hex str = false -> hex_prefix str = EmptyString.
Proof.
  destruct str as [|c str]; [reflexivity|]. cbn. now intros ->.
Qed.

(** The first maximal run of a text that starts with a digit is its
    longest hexadecimal prefix. *)
Lemma hex_runs_started (str : string) :
  starts_hex str = true ->
  exists rs, hex_runs str = hex_prefix str :: rs.
Proof.
  induction str as [|c str IH]; [discriminate|].
  cbn [starts_hex hex_runs hex_prefix]. intros ->.
  destruct (starts_hex str) eqn:E.
  - destruct (IH eq_refl) as [rs ->]. now exists rs.
  - rewrite (hex_prefix_not_started str E). now eexists.
Qed.

Lemma hex_runs_cons (c : ascii) (str : string) :
  is_hex c = true ->
  exists rs,
    hex_runs (String c str) = String c (hex_prefix str) :: rs
    /\ hex_runs str
       = if starts_hex str then hex_prefix str :: rs else rs.
Proof.
  intros Hc. cbn [hex_runs]. rewrite Hc.
  destruct (starts_hex str) eqn:E.
  - destruct (hex_runs_started str E) as [rs Hrs]. rewrite Hrs.
    now exists rs.
  - rewrite (hex_prefix_not_started str E). now eexists.
Qed.

Lemma substring_prefix_nil (k : nat) : substring 0 k EmptyString = EmptyString.
Proof. now destruct k. Qed.

(** The leftmost match of [n] digits, [n] positive, is the head of the
    first maximal run that has [n] digits or more. *)
Lemma FindString_hex_runs (n : nat) (str : string) :
  (0 < n)%nat ->
  regexp.FindString (hex_times n) str
  = substring 0 n
      (first_run (fun r => Nat.leb n (String.length r)) str).
Proof.
  intros Hn. unfold first_run.
  induction str as [|c str IH].
  - cbn [regexp.FindString regexp.reps hex_times]. rewrite match_here_hex.
    cbn [hex_prefix String.length hex_runs find].
    destruct n; [lia|]. reflexivity.
  - cbn [regexp.FindString regexp.reps hex_times] in *.
    rewrite match_here_hex. cbn [hex_prefix].
    destruct (is_hex c) eqn:Hc.
    + destruct (hex_runs_cons c str Hc) as [rs [-> Hrs]].
      cbn [find].
      destruct (Nat.leb n (String.length (String c (hex_prefix str)))) eqn:E;
        [reflexivity|].
      rewrite IH, Hrs. destruct (starts_hex str); [|reflexivity].
      cbn [find].
      destruct (Nat.leb_spec n (String.length (hex_prefix str))) as [H|_];
        [|reflexivity].
      apply Nat.leb_gt in E. cbn [String.length] in E. lia.
    + cbn [String.length]. destruct n; [lia|]. cbn [Nat.leb hex_runs].
      rewrite Hc. exact IH.
Qed.

Lemma FindString_hex1 (fn : string) :
  regexp.FindString regexp.hex1 fn = first_hex_char fn.
Proof.
  induction fn as [|c fn IH]; [reflexivity|].
  change regexp.hex1 with (hex_times 1) in *.
  cbn [regexp.FindString regexp.reps hex_times regexp.match_here
         first_hex_char] in *.
  rewrite in_class_hex. destruct (is_hex c); [reflexivity | exact IH].
Qed.

Lemma substring_all (str : string) :
  substring 0 (String.length str) str = str.
Proof.
  induction str as [|c str IH]; [reflexivity|]. cbn. now rewrite IH.
Qed.

Lemma find_exact_or_more (rs : list string) :
  (forall r, In r rs -> (String.length r <= 32)%nat) ->
  substring 0 32
    (match find (fun r => Nat.leb 32 (String.length r)) rs with
     | Some r => r
     | None => EmptyString
     end)
  = match find (fun r => Nat.eqb (String.length r) 32) rs with
    | Some r => r
    | None => EmptyString
    end.
Proof.
  induction rs as [|r rs IH]; intros H; [reflexivity|].
  cbn [find].
  assert (Hr : (String.length r <= 32)%nat) by (apply H; now left).
  destruct (Nat.eqb_spec (String.length r) 32) as [E|NE].
  - rewrite E. cbn [Nat.leb]. rewrite <- E at 1. apply substring_all.
  - destruct (Nat.leb_spec 32 (String.length r)) as [?|_]; [lia|].
    apply IH. intros r' Hr'. apply H. now right.
Qed.

(** C6, as amended. With the width 32 that MD5 mode asks for, the
    extractor returns the leftmost 32 consecutive hexadecimal digits of the
    filename, that is the first 32 bytes of the first maximal run of at
    least 32 digits, and the empty text when no run is that long; when no
    run is longer than 32 this is the first maximal run of exactly 32.  On
    ["IMG_d41d8cd98f00b204e9800998ecf8427e.jpg"] it returns
    ["d41d8cd98f00b204e9800998ecf8427e"].  With the width 0 of the other
    mode it returns the first hexadecimal digit alone, or the empty text. *)
Theorem extractChecksumFromFilename_spec :
  (forall fn,
      extractChecksumFromFilename true fn (wanted_len true)
      = head_of_first_run_of_32_or_more fn)
  /\ (forall fn,
         (forall r, In r (hex_runs fn) -> (String.length r <= 32)%nat) ->
         extractChecksumFromFilename true fn (wanted_len true)
         = first_run_of_exactly_32 fn)
  /\ extractChecksumFromFilename true
       "IMG_d41d8cd98f00b204e9800998ecf8427e.jpg" (wanted_len true)
     = "d41d8cd98f00b204e9800998ecf8427e"
  /\ (forall fn,
         extractChecksumFromFilename false fn (wanted_len false)
         = first_hex_char fn).
Proof.
  assert (H32 : forall fn,
             extractChecksumFromFilename true fn (wanted_len true)
             = head_of_first_run_of_32_or_more fn).
  { intros fn. unfold extractChecksumFromFilename, wanted_len.
    cbn [Z.eqb Pos.eqb]. change regexp.hex32 with (hex_times 32).
    apply FindString_hex_runs. lia. }
  split; [exact H32|]. split; [|split].
  - intros fn Hruns. rewrite H32.
    unfold head_of_first_run_of_32_or_more, first_run_of_exactly_32,
      first_run.
    now apply find_exact_or_more.
  - vm_compute. reflexivity.
  - intros fn. unfold extractChecksumFromFilename, wanted_len.
    cbn [Z.eqb]. apply FindString_hex1.
Qed.

(** A file named by its SHA-256 digest has one run of 64 digits and none
    of exactly 32; the extractor returns the first half of the name. *)
Lemma extractor_cuts_longer_runs :
  let fn :=
    "e3b0c44298fc1c149afbf4c8996fb92427ae41e4649b934ca495991b7852b855.bin" in
  extractChecksumFromFilename true fn (wanted_len true)
  = "e3b0c44298fc1c149afbf4c8996fb924"
  /\ first_run_of_exactly_32 fn = ""
  /\ extractChecksumFromFilename true fn (wanted_len true)
     <> first_run_of_exactly_32 fn.
Proof.
  cbv zeta. repeat split; try (vm_compute; reflexivity).
  vm_compute. discriminate.
Qed.

(** ** Computing the actual attributes *)

Lemma hex_char_lower (d : N) :
  (d < 16)%N ->
  byte_in "0" "9" (fmt.hex_char d) = true
  \/ byte_in "a" "f" (fmt.hex_char d) = true.
Proof.
  intros H.
  assert (E : In d [0; 1; 2; 3; 4; 5; 6; 7; 8; 9; 10; 11; 12; 13; 14; 15]%N).
  { cbn [In]. lia. }
  cbn [In] in E.
  repeat (destruct E as [<- | E]; [vm_compute; auto|]). contradiction.
Qed.

Lemma Sprintf_x_spec (b : list byte) :
  String.length (fmt.Sprintf_x b) = (2 * List.length b)%nat
  /\ all_lower_hex (fmt.Sprintf_x b).
Proof.
  induction b as [|x b [IHl IHh]]; [now split|].
  cbn [fmt.Sprintf_x String.length List.length all_lower_hex].
  split; [lia|].
  assert (Hx : (Byte.to_N x < 256)%N)
    by (pose proof (Byte.to_N_bounded x); lia).
  repeat split; try exact IHh; apply hex_char_lower.
  - apply N.Div0.div_lt_upper_bound. exact Hx.
  - apply N.mod_lt. discriminate.
Qed.

Lemma list_byte_of_string_length (str : string) :
  List.length (list_byte_of_string str) = String.length str.
Proof.
  induction str as [|c str IH]; [reflexivity|].
  cbn. f_equal. exact IH.
Qed.

(** X1. [getActualAttr] hands out a digest only together with a nil error:
    next to any error the record carries the zero digest of the algorithm;
    with a nil error both [Stat] calls and the streaming succeeded, the two
    modification times are the same, the timestamp is that time and the
    digest is the lower-case hexadecimal text of the raw digest, twice its
    length.  The fields of the other algorithm stay empty either way. *)
Theorem actual_digest_only_without_error
  (md5_Sum sha256_Sum : list byte -> list byte)
  (bMd5 : bool) (f : File) (w : World) :
  let r := getActualAttr md5_Sum sha256_Sum bMd5 f w in
  let attr := fst (fst r) in
  match snd (fst r) with
  | Some _ => digest bMd5 attr = zero_digest bMd5
  | None =>
      exists before after content,
        Stat f (stat_calls w) = Success before
        /\ io_Copy f = Success content
        /\ Stat f (S (stat_calls w)) = Success after
        /\ mtime_of before = mtime_of after
        /\ stamp bMd5 attr = mtime_of before
        /\ digest bMd5 attr
           = list_byte_of_string
               (fmt.Sprintf_x (Sum_of md5_Sum sha256_Sum bMd5 content))
        /\ all_lower_hex
             (fmt.Sprintf_x (Sum_of md5_Sum sha256_Sum bMd5 content))
        /\ List.length (digest bMd5 attr)
           = (2 * List.length (Sum_of md5_Sum sha256_Sum bMd5 content))%nat
  end
  /\ digest (negb bMd5) attr = []
  /\ stamp (negb bMd5) attr = zeroFileTimeStamp.
Proof.
  cbv zeta.
  destruct bMd5; unfold getActualAttr, getActualAttrMd5, getActualAttrSha256,
    getMtime, Sum_of;
    destruct (Stat f (stat_calls w)) as [t1|e1];
    cbn [stat_calls tick emit snd fst];
    try (repeat split; reflexivity);
    destruct (io_Copy f) as [content|e2];
    cbn [stat_calls tick emit snd fst];
    try (repeat split; reflexivity);
    destruct (Stat f (S (stat_calls w))) as [t2|e3];
    cbn [stat_calls tick emit snd fst];
    try (repeat split; reflexivity);
    cbn [tsMd5 ts set_tsMd5 set_ts];
    destruct (fileTimestamp_eqb (mtime_of t1) (mtime_of t2)) eqn:E;
    cbn [negb snd fst];
    try (repeat split; reflexivity);
    apply fileTimestamp_eqb_eq in E;
    (split; [|split; reflexivity]);
    exists t1, t2, content;
    repeat split; try assumption;
    try apply Sprintf_x_spec;
    cbn [digest md5 sha256 set_md5 set_sha256];
    rewrite list_byte_of_string_length; apply Sprintf_x_spec.
Qed.

(** X2. [getActualAttr] asks for the modification time, streams the
    content, and asks again, in this order and stopping at the first
    failure: the content is not read when the first [Stat] fails and the
    second [Stat] is not made when the reading fails.  It touches nothing
    else: no attribute is read or written, nothing is printed or counted. *)
Theorem hashing_samples_time_around_the_stream
  (md5_Sum sha256_Sum : list byte -> list byte)
  (bMd5 : bool) (f : File) (w : World) :
  let w' := snd (getActualAttr md5_Sum sha256_Sum bMd5 f w) in
  new_events w w' = hashing_steps f w
  /\ stats w' = stats w
  /\ stat_calls w'
     = (stat_calls w
        + List.length (filter (fun e => match e with EvStat => true
                                                | _ => false end)
                         (hashing_steps f w)))%nat.
Proof.
  cbv zeta. unfold hashing_steps.
  destruct bMd5; unfold getActualAttr, getActualAttrMd5, getActualAttrSha256,
    getMtime;
    destruct (Stat f (stat_calls w)) as [t1|e1];
    cbn [stat_calls tick emit snd fst];
    try destruct (io_Copy f) as [content|e2];
    cbn [stat_calls tick emit snd fst];
    try destruct (Stat f (S (stat_calls w))) as [t2|e3];
    cbn [stat_calls tick emit snd fst];
    try destruct (negb _);
    new_events_of; cbn [snd stats stat_calls tick emit filter List.length];
    repeat split; lia.
Qed.

(** ** Every way through [checkFile] *)

(** Splits a goal about [checkFile] into the branches of the function: the
    file does not open; remove mode, failing or not; filename-only mode,
    matching or not; and, after hashing, each error and each row of the
    comparison, with [storeAttr] failing or not.  The flags [args.q] and
    [args.qq] are left alone. *)
Ltac checkFile_cases md5_Sum sha256_Sum os_Open g bMd5 fn w f :=
  unfold checkFile;
  let e0 := fresh "e0" in
  let er := fresh "er" in
  let es := fresh "es" in
  let e1 := fresh "e1" in
  let stored := fresh "stored" in
  let actual := fresh "actual" in
  let err := fresh "err" in
  let st := fresh "st" in
  let sc := fresh "sc" in
  let lg := fresh "lg" in
  let evs := fresh "evs" in
  let Hopen := fresh "Hopen" in
  let Hrm := fresh "Hrm" in
  let Hremove := fresh "Hremove" in
  let Honly := fresh "Honly" in
  let Hname := fresh "Hname" in
  let Hstats := fresh "Hstats" in
  let Hlog := fresh "Hlog" in
  let Hhash := fresh "Hhash" in
  let Hact := fresh "Hact" in
  let HT := fresh "HT" in
  let HD := fresh "HD" in
  let HN := fresh "HN" in
  let HZ := fresh "HZ" in
  let Hstore := fresh "Hstore" in
  destruct (os_Open fn) as [f|e0] eqn:Hopen;
  [ destruct (args_remove g) eqn:Hrm;
    [ unfold removeAttr;
      destruct (removeAttr_result f) as [er|] eqn:Hremove; cbn [option_map]
    | rewrite getStoredAttr_eta;
      set (stored := fst (fst (getStoredAttr bMd5 f (count c_total w))));
      destruct (gBOnlyFilename g) eqn:Honly;
      [ destruct (checkFilename bMd5 fn stored) eqn:Hname
      | destruct (getActualAttr_steady md5_Sum sha256_Sum bMd5 f
                    (emit_reads bMd5 (count c_total w)))
          as [Hstats [evs [Hlog Hhash]]];
        destruct (getActualAttr md5_Sum sha256_Sum bMd5 f
                    (emit_reads bMd5 (count c_total w)))
          as [[actual err] [st sc lg]] eqn:Hact;
        cbn [snd stats log] in Hstats, Hlog; subst st lg;
        unfold persist, storeAttr;
        destruct err as [[|e1]|];
        [ | |
          destruct (timesMatch bMd5 stored actual) eqn:HT;
          destruct (checksumsMatch bMd5 stored actual) eqn:HD;
          [ destruct (gBCheckFilename g
                      && negb (checkFilename bMd5 fn actual)) eqn:HN
          | destruct (storeAttr_result f bMd5 actual) as [es|] eqn:Hstore;
            cbn [option_map]
          | destruct (storeAttr_result f bMd5 actual) as [es|] eqn:Hstore;
            cbn [option_map]
          | destruct (bytesMatchZero bMd5 stored
                      && timesMatchZero bMd5 stored) eqn:HZ;
            destruct (storeAttr_result f bMd5 actual) as [es|] eqn:Hstore;
            cbn [option_map] ] ] ] ]
  | ].

(** X3. A check that fails, because the file does not open, the
    attributes cannot be removed or the file cannot be read, prints exactly
    one line, on the error stream, whatever the quiet flags; it calls
    [storeAttr] never and counts the file in [total] and in one error
    counter. *)
Theorem failures_are_reported_once
  (md5_Sum sha256_Sum : list byte -> list byte)
  (os_Open : string -> result File) (g : Globals) (bMd5 : bool)
  (fn : string) (w : World) :
  let c := checkFile md5_Sum sha256_Sum os_Open g bMd5 fn w in
  is_failure (fst c) = true ->
  (exists text,
      filter is_output (new_events w (snd c))
      = [Stderr ("Error: " ++ text ++ nl)%string])
  /\ filter is_store (new_events w (snd c)) = []
  /\ (stats (snd c) = incr c_errorsOpening (incr c_total (stats w))
      \/ stats (snd c) = incr c_errorsOther (incr c_total (stats w))).
Proof.
  cbv zeta.
  checkFile_cases md5_Sum sha256_Sum os_Open g bMd5 fn w f;
    try pose proof (hashing_filter_store _ Hhash) as Hfs;
    try pose proof (hashing_filter_output _ Hhash) as Hfo;
    destruct (args_q g); destruct (args_qq g);
    cbn [fst is_failure]; intros Hf; try discriminate Hf;
    new_events_of; cbn [snd stats count];
    rewrite ?filter_app, ?Hfs, ?Hfo;
    (split; [eexists; reflexivity | split; [reflexivity | auto]]).
Qed.

Lemma failures_are_reported_once_witness :
  let c := checkFile sample_md5_Sum sample_sha256_Sum open_nothing
             (flags false true true false false) true "a.txt" fresh_world in
  (exists text,
      filter is_output (new_events fresh_world (snd c))
      = [Stderr ("Error: " ++ text ++ nl)%string])
  /\ filter is_store (new_events fresh_world (snd c)) = []
  /\ (stats (snd c) = incr c_errorsOpening (incr c_total (stats fresh_world))
      \/ stats (snd c) = incr c_errorsOther (incr c_total (stats fresh_world))).
Proof.
  exact (failures_are_reported_once sample_md5_Sum sample_sha256_Sum
           open_nothing (flags false true true false false) true "a.txt"
           fresh_world eq_refl).
Defined.

(** X4. In remove mode [checkFile] calls [removeAttr] and nothing else on
    the file: it reads no attribute, asks for no modification time, streams
    nothing and stores nothing.  The file is counted in [ok] when the
    removal succeeds and in [errorsOther] when it fails, and neither the
    algorithm nor the digest functions make a difference. *)
Theorem remove_mode_only_removes
  (md5_Sum sha256_Sum : list byte -> list byte)
  (os_Open : string -> result File) (g : Globals) (bMd5 : bool)
  (fn : string) (w : World) (f : File) :
  args_remove g = true ->
  os_Open fn = Success f ->
  let c := checkFile md5_Sum sha256_Sum os_Open g bMd5 fn w in
  filter is_action (new_events w (snd c)) = [EvRemove]
  /\ stat_calls (snd c) = stat_calls w
  /\ match removeAttr_result f with
     | Some _ =>
         fst c = RemoveError
         /\ stats (snd c) = incr c_errorsOther (incr c_total (stats w))
     | None =>
         fst c = RemovedAttributes
         /\ stats (snd c) = incr c_ok (incr c_total (stats w))
     end
  /\ (forall md5_Sum' sha256_Sum' bMd5',
        checkFile md5_Sum' sha256_Sum' os_Open g bMd5' fn w = c).
Proof.
  intros Hrm Hopen. cbv zeta. unfold checkFile, removeAttr.
  rewrite Hopen, Hrm.
  destruct (removeAttr_result f); cbn [option_map];
    destruct (args_q g); new_events_of; repeat split.
Qed.

Lemma remove_mode_only_removes_witness :
  let g := flags true false false false false in
  let c := checkFile sample_md5_Sum sample_sha256_Sum
             (open_as tagged_md5_file) g true "a.txt" fresh_world in
  filter is_action (new_events fresh_world (snd c)) = [EvRemove]
  /\ stat_calls (snd c) = stat_calls fresh_world
  /\ match removeAttr_result tagged_md5_file with
     | Some _ =>
         fst c = RemoveError
         /\ stats (snd c)
            = incr c_errorsOther (incr c_total (stats fresh_world))
     | None =>
         fst c = RemovedAttributes
         /\ stats (snd c) = incr c_ok (incr c_total (stats fresh_world))
     end
  /\ (forall md5_Sum' sha256_Sum' bMd5',
        checkFile md5_Sum' sha256_Sum' (open_as tagged_md5_file) g bMd5'
          "a.txt" fresh_world = c).
Proof.
  exact (remove_mode_only_removes sample_md5_Sum sample_sha256_Sum
           (open_as tagged_md5_file) (flags true false false false false)
           true "a.txt" fresh_world tagged_md5_file eq_refl eq_refl).
Defined.

Lemma silenced_same_actions
  (md5_Sum sha256_Sum : list byte -> list byte)
  (os_Open : string -> result File) (g : Globals) (bMd5 : bool)
  (fn : string) (w : World) :
  let c := checkFile md5_Sum sha256_Sum os_Open g bMd5 fn w in
  let c' := checkFile md5_Sum sha256_Sum os_Open (silenced g) bMd5 fn w in
  fst c = fst c'
  /\ stats (snd c) = stats (snd c')
  /\ stat_calls (snd c) = stat_calls (snd c')
  /\ filter is_action (new_events w (snd c))
     = filter is_action (new_events w (snd c')).
Proof.
  cbv zeta. unfold silenced, checkFile.
  cbn [args_remove args_q args_qq gBOnlyFilename gBCheckFilename flags].
  checkFile_cases md5_Sum sha256_Sum os_Open g bMd5 fn w f;
    try rewrite Hrm; try rewrite Honly; try rewrite Hopen.
  all: try rewrite Hremove; try rewrite Hname; try rewrite Hact.
  all: try rewrite HT; try rewrite HD; try rewrite HN; try rewrite HZ.
  all: try rewrite Hstore; cbn [option_map].
  all: destruct (args_q g); destruct (args_qq g).
  all: unfold removeAttr, persist, storeAttr;
    cbn [args_remove args_q args_qq gBOnlyFilename gBCheckFilename flags];
    try rewrite Hremove; try rewrite Hstore; cbn [option_map].
  all: repeat new_events_of.
  all: cbn [fst snd stats stat_calls count emit tick print_unless
              printComparison print_error];
    rewrite ?filter_app; cbn [filter is_action is_output negb app];
    rewrite ?app_nil_r; repeat split.
Qed.

(** X5. The quiet flags [args.q] and [args.qq] change what is printed and
    nothing else: two checks whose flags differ in them only give the same
    verdict and the same counters, and read, hash, store and remove the
    same. *)
Theorem quiet_flags_only_change_output
  (md5_Sum sha256_Sum : list byte -> list byte)
  (os_Open : string -> result File) (g g' : Globals) (bMd5 : bool)
  (fn : string) (w : World) :
  args_remove g = args_remove g' ->
  gBOnlyFilename g = gBOnlyFilename g' ->
  gBCheckFilename g = gBCheckFilename g' ->
  let c := checkFile md5_Sum sha256_Sum os_Open g bMd5 fn w in
  let c' := checkFile md5_Sum sha256_Sum os_Open g' bMd5 fn w in
  fst c = fst c'
  /\ stats (snd c) = stats (snd c')
  /\ stat_calls (snd c) = stat_calls (snd c')
  /\ filter is_action (new_events w (snd c))
     = filter is_action (new_events w (snd c')).
Proof.
  intros H1 H2 H3. cbv zeta.
  pose proof (silenced_same_actions md5_Sum sha256_Sum os_Open g bMd5 fn w)
    as Hg.
  pose proof (silenced_same_actions md5_Sum sha256_Sum os_Open g' bMd5 fn w)
    as Hg'.
  cbv zeta in Hg, Hg'. unfold silenced in Hg, Hg'.
  rewrite H1, H2, H3 in Hg.
  destruct Hg as (-> & -> & -> & ->).
  destruct Hg' as (-> & -> & -> & ->). repeat split.
Qed.

Lemma quiet_flags_only_change_output_witness :
  let c := checkFile sample_md5_Sum sample_sha256_Sum
             (open_as untagged_file) (flags false false false false false)
             true "a.txt" fresh_world in
  let c' := checkFile sample_md5_Sum sample_sha256_Sum
              (open_as untagged_file) (flags false true true false false)
              true "a.txt" fresh_world in
  fst c = fst c'
  /\ stats (snd c) = stats (snd c')
  /\ stat_calls (snd c) = stat_calls (snd c')
  /\ filter is_action (new_events fresh_world (snd c))
     = filter is_action (new_events fresh_world (snd c')).
Proof.
  exact (quiet_flags_only_change_output sample_md5_Sum sample_sha256_Sum
           (open_as untagged_file) (flags false false false false false)
           (flags false true true false false) true "a.txt" fresh_world
           eq_refl eq_refl eq_refl).
Defined.


(** X7. Corruption is never silenced: a check that ends in [Corrupt]
    writes the file name to the error stream and the line ["<corrupt>"] to
    the standard output whatever the quiet flags; and with both quiet flags
    set that line is the only thing a check ever writes to the standard
    output. *)
Theorem corruption_is_never_silenced
  (md5_Sum sha256_Sum : list byte -> list byte)
  (os_Open : string -> result File) (g : Globals) (bMd5 : bool)
  (fn : string) (w : World) :
  let c := checkFile md5_Sum sha256_Sum os_Open g bMd5 fn w in
  (fst c = Corrupt ->
   In (StderrCorrupt fn) (new_events w (snd c))
   /\ In (Stdout ("<corrupt> " ++ fn ++ nl)%string) (new_events w (snd c)))
  /\ (args_q g = true -> args_qq g = true ->
      filter is_stdout (new_events w (snd c))
      = match fst c with
        | Corrupt => [Stdout ("<corrupt> " ++ fn ++ nl)%string]
        | _ => []
        end).
Proof.
  cbv zeta.
  assert (Hf : forall evs, forallb is_hashing evs = true ->
                           filter is_stdout evs = []).
  { intros evs. induction evs as [|e evs IH]; [reflexivity|].
    cbn [forallb filter]. rewrite andb_true_iff. intros [He H].
    destruct e; try discriminate He; cbn [is_stdout]; auto. }
  checkFile_cases md5_Sum sha256_Sum os_Open g bMd5 fn w f;
    try pose proof (Hf _ Hhash) as Hfo;
    destruct (args_q g); destruct (args_qq g);
    new_events_of; cbn [fst snd];
    (split;
     [ intros Hv; try discriminate Hv;
       repeat rewrite in_app_iff; cbn [In]; auto 20
     | intros Hq Hqq; try discriminate Hq; try discriminate Hqq;
       rewrite ?filter_app, ?Hfo; reflexivity ]).
Qed.

(** X8. [storeAttr] is only ever given what was just computed: the
    selected algorithm and the attributes [getActualAttr] returned with a
    nil error for the file that [os.Open] opened.  The record of a torn or
    failed read is never stored. *)
Theorem only_fresh_attributes_are_stored
  (md5_Sum sha256_Sum : list byte -> list byte)
  (os_Open : string -> result File) (g : Globals) (bMd5 : bool)
  (fn : string) (w : World) (b : bool) (a : fileAttr) :
  In (EvStore b a)
     (new_events w (snd (checkFile md5_Sum sha256_Sum os_Open g bMd5 fn w))) ->
  b = bMd5
  /\ exists f w',
       os_Open fn = Success f
       /\ getActualAttr md5_Sum sha256_Sum bMd5 f
            (emit_reads bMd5 (count c_total w))
          = (a, None, w').
Proof.
  checkFile_cases md5_Sum sha256_Sum os_Open g bMd5 fn w f;
    destruct (args_q g); destruct (args_qq g);
    new_events_of; intros Hin;
    split_In Hin Hhash;
    injection Hin as <- <-;
    (split; [reflexivity | eexists; eexists; split; [reflexivity | exact Hact]]).
Qed.

Lemma only_fresh_attributes_are_stored_witness :
  exists a,
    true = true
    /\ exists f w',
         open_as untagged_file "a.txt" = Success f
         /\ getActualAttr sample_md5_Sum sample_sha256_Sum true f
              (emit_reads true (count c_total fresh_world))
            = (a, None, w').
Proof.
  eexists.
  apply (only_fresh_attributes_are_stored sample_md5_Sum sample_sha256_Sum
           (open_as untagged_file) (flags false false false false false)
           true "a.txt" fresh_world true).
  vm_compute. repeat (first [left; reflexivity | right]).
Defined.

(** ** Files without attributes, files that are up to date *)

Lemma getStoredAttr_stamp (bMd5 : bool) (f : File) (w : World) :
  stamp bMd5 (fst (fst (getStoredAttr bMd5 f w)))
  = match xattr_FGet f (stamp_xattr bMd5) with
    | Failure _ => zeroFileTimeStamp
    | Success val =>
        {| s := fst (strconv.ParseUint (seconds_text val) 10 64);
           ns := match nanos_text val with
                 | Some text => wrap32 (fst (strconv.ParseUint text 10 32))
                 | None => 0
                 end |}
    end.
Proof.
  unfold seconds_text, nanos_text.
  destruct bMd5; unfold getStoredAttr, getStoredAttrMd5, getStoredAttrSha256,
    FGet, stamp, stamp_xattr.
  - destruct (xattr_FGet f xattrMd5);
      destruct (xattr_FGet f xattrTsMd5) as [val|?]; try reflexivity;
      rewrite SplitN_two;
      now destruct (strings.Cut (string_of_list_byte val) ".") as [[? ?]|].
  - destruct (xattr_FGet f xattrSha256);
      destruct (xattr_FGet f xattrTsSha256) as [val|?]; try reflexivity;
      rewrite SplitN_two;
      now destruct (strings.Cut (string_of_list_byte val) ".") as [[? ?]|].
Qed.

(** X9. A file whose two attributes of the selected algorithm cannot be
    read is compared with the zero digest and the zero timestamp: it is
    [New] when its modification time is not the zero timestamp and its
    digest is not the zero digest, and it is never [Outdated].  At the
    edges the zero values are taken for stored ones: with a modification
    time equal to the zero timestamp the file is reported [Corrupt], with a
    digest equal to the zero digest [TimeChanged]. *)
Theorem untagged_file_is_new_unless_zero
  (md5_Sum sha256_Sum : list byte -> list byte)
  (os_Open : string -> result File) (g : Globals) (bMd5 : bool)
  (fn : string) (w : World) (f : File) (actual : fileAttr) (w2 : World)
  (e1 e2 : ioerr) :
  args_remove g = false ->
  gBOnlyFilename g = false ->
  os_Open fn = Success f ->
  xattr_FGet f (digest_xattr bMd5) = Failure e1 ->
  xattr_FGet f (stamp_xattr bMd5) = Failure e2 ->
  getActualAttr md5_Sum sha256_Sum bMd5 f (emit_reads bMd5 (count c_total w))
  = (actual, None, w2) ->
  let v := fst (checkFile md5_Sum sha256_Sum os_Open g bMd5 fn w) in
  (stamp bMd5 actual <> zeroFileTimeStamp ->
   digest bMd5 actual <> zero_digest bMd5 -> v = New)
  /\ (stamp bMd5 actual = zeroFileTimeStamp ->
      digest bMd5 actual <> zero_digest bMd5 -> v = Corrupt)
  /\ (stamp bMd5 actual <> zeroFileTimeStamp ->
      digest bMd5 actual = zero_digest bMd5 -> v = TimeChanged)
  /\ v <> Outdated.
Proof.
  intros Hrm Honly Hopen Hd Ht Hact. cbv zeta.
  rewrite (checkFile_verdict md5_Sum sha256_Sum os_Open g bMd5 fn w f
             (fst (fst (getStoredAttr bMd5 f (count c_total w)))) actual
             None (emit_reads bMd5 (count c_total w)) w2 Hrm Honly Hopen
             (getStoredAttr_eta bMd5 f (count c_total w)) Hact).
  rewrite getStoredAttr_digest, getStoredAttr_stamp.
  unfold stored_digest_of. rewrite Hd, Ht.
  assert (Ez : bytes.Equal (zero_digest bMd5) (zero_digest bMd5) = true)
    by now apply bytes_Equal_eq.
  assert (Et : fileTimestamp_eqb zeroFileTimeStamp zeroFileTimeStamp = true)
    by reflexivity.
  rewrite Ez, Et. cbn [andb].
  destruct (fileTimestamp_eqb zeroFileTimeStamp (stamp bMd5 actual)) eqn:ET;
    [apply fileTimestamp_eqb_eq in ET | apply fileTimestamp_eqb_neq in ET];
    (destruct (bytes.Equal (zero_digest bMd5) (digest bMd5 actual)) eqn:ED;
     [apply bytes_Equal_eq in ED | apply bytes_Equal_neq in ED]);
    repeat split; intros; try congruence;
    unfold ok_or_demoted; destruct (_ && _); discriminate.
Qed.

Lemma untagged_file_is_new_unless_zero_witness :
  let actual :=
    fst (fst (getActualAttr sample_md5_Sum sample_sha256_Sum true
                untagged_file (emit_reads true (count c_total fresh_world))))
  in
  let v := fst (checkFile sample_md5_Sum sample_sha256_Sum
                  (open_as untagged_file)
                  (flags false false false false false) true "a.txt"
                  fresh_world) in
  (stamp true actual <> zeroFileTimeStamp ->
   digest true actual <> zero_digest true -> v = New)
  /\ (stamp true actual = zeroFileTimeStamp ->
      digest true actual <> zero_digest true -> v = Corrupt)
  /\ (stamp true actual <> zeroFileTimeStamp ->
      digest true actual = zero_digest true -> v = TimeChanged)
  /\ v <> Outdated.
Proof.
  exact (untagged_file_is_new_unless_zero
           sample_md5_Sum sample_sha256_Sum (open_as untagged_file)
           (flags false false false false false) true "a.txt" fresh_world
           untagged_file _ _ "no data available" "no data available"
           eq_refl eq_refl eq_refl eq_refl eq_refl eq_refl).
Defined.

(** An untagged file whose modification time is the epoch. *)
Example untagged_epoch_file_is_corrupt :
  fst (checkFile sample_md5_Sum sample_sha256_Sum
         (open_as (sample_file [] {| Unix := 0; Nanosecond := 0 |}
                     {| Unix := 0; Nanosecond := 0 |} None))
         (flags false false false false false) true "a.txt" fresh_world)
  = Corrupt.
Proof. vm_compute. reflexivity. Qed.

(** ** Filenames under SHA-256 *)

Lemma first_hex_char_short (fn : string) :
  (String.length (first_hex_char fn) <= 1)%nat.
Proof.
  induction fn as [|c fn IH]; cbn [first_hex_char]; [cbn; lia|].
  destruct (is_hex c); [cbn; lia | exact IH].
Qed.

Lemma filename_checksum_sha256_short (fn : string) :
  (List.length (filename_checksum false fn) <= 1)%nat.
Proof.
  unfold filename_checksum, extractChecksumFromFilename, wanted_len.
  cbn [Z.eqb]. rewrite list_byte_of_string_length, FindString_hex1.
  apply first_hex_char_short.
Qed.

Lemma stored_digest_of_length (bMd5 : bool) (f : File) :
  List.length (stored_digest_of bMd5 f) = digest_width bMd5.
Proof.
  unfold stored_digest_of.
  destruct (xattr_FGet f (digest_xattr bMd5)) as [val|e].
  - rewrite length_app, length_firstn, repeat_length. lia.
  - now destruct bMd5.
Qed.

(** What [getActualAttr] returns with a nil error. *)
Lemma getActualAttr_ok
  (md5_Sum sha256_Sum : list byte -> list byte)
  (bMd5 : bool) (f : File) (w w' : World) (actual : fileAttr) :
  getActualAttr md5_Sum sha256_Sum bMd5 f w = (actual, None, w') ->
  exists before content,
    Stat f (stat_calls w) = Success before
    /\ io_Copy f = Success content
    /\ stamp bMd5 actual = mtime_of before
    /\ digest bMd5 actual
       = list_byte_of_string
           (fmt.Sprintf_x (Sum_of md5_Sum sha256_Sum bMd5 content)).
Proof.
  destruct bMd5; unfold getActualAttr, getActualAttrMd5, getActualAttrSha256,
    getMtime, Sum_of;
    destruct (Stat f (stat_calls w)) as [t1|e1];
    cbn [stat_calls tick emit]; try discriminate;
    destruct (io_Copy f) as [content|e2]; try discriminate;
    destruct (Stat f (S (stat_calls w))) as [t2|e3]; try discriminate;
    destruct (negb _); try discriminate;
    intros [= <- _]; exists t1, content; repeat split.
Qed.

(** X10. Under SHA-256 the filename-only mode accepts no file: the
    extractor is asked for width 0 and returns one hexadecimal digit at
    most, while the stored digest always has 64 bytes, so the check ends in
    the mismatch branch whatever the name and the attributes are. *)
Theorem sha256_filename_only_never_matches
  (md5_Sum sha256_Sum : list byte -> list byte)
  (os_Open : string -> result File) (g : Globals)
  (fn : string) (w : World) (f : File) :
  args_remove g = false ->
  gBOnlyFilename g = true ->
  os_Open fn = Success f ->
  fst (checkFile md5_Sum sha256_Sum os_Open g false fn w)
  = FilenameOnlyMismatch.
Proof.
  intros Hrm Honly Hopen. unfold checkFile.
  rewrite Hopen, Hrm, getStoredAttr_eta, Honly, checkFilename_digest.
  fold (filename_checksum false fn).
  destruct (bytes.Equal _ _) eqn:E; [|reflexivity].
  apply bytes_Equal_eq in E. apply (f_equal (@List.length byte)) in E.
  rewrite getStoredAttr_digest, stored_digest_of_length in E.
  pose proof (filename_checksum_sha256_short fn) as H.
  rewrite E in H. cbn in H. lia.
Qed.

(** A file named by its own SHA-256 digest and tagged with it. *)
Lemma sha256_filename_only_never_matches_witness :
  fst (checkFile sample_md5_Sum sample_sha256_Sum (open_as sha_tagged_file)
         (flags false false false true false) false
         "e3b0c44298fc1c149afbf4c8996fb92427ae41e4649b934ca495991b7852b855"
         fresh_world)
  = FilenameOnlyMismatch.
Proof.
  exact (sha256_filename_only_never_matches
           sample_md5_Sum sample_sha256_Sum (open_as sha_tagged_file)
           (flags false false false true false)
           "e3b0c44298fc1c149afbf4c8996fb92427ae41e4649b934ca495991b7852b855"
           fresh_world sha_tagged_file eq_refl eq_refl eq_refl).
Defined.

(** X11. Under SHA-256 with filenames to be verified no check ends in
    [Ok], as long as the digest function never returns an empty digest: the
    one digit the extractor returns cannot equal the hexadecimal text of a
    digest. *)
Theorem sha256_verified_filename_never_ok
  (md5_Sum sha256_Sum : list byte -> list byte)
  (os_Open : string -> result File) (g : Globals)
  (fn : string) (w : World) :
  gBCheckFilename g = true ->
  (forall content, sha256_Sum content <> []) ->
  fst (checkFile md5_Sum sha256_Sum os_Open g false fn w) <> Ok.
Proof.
  intros Hchk Hsum.
  checkFile_cases md5_Sum sha256_Sum os_Open g false fn w f;
    cbn [fst]; try discriminate.
  rewrite Hchk in HN. cbn [andb] in HN. apply negb_false_iff in HN.
  rewrite checkFilename_digest in HN. fold (filename_checksum false fn) in HN.
  apply bytes_Equal_eq in HN. apply (f_equal (@List.length byte)) in HN.
  destruct (getActualAttr_ok _ _ _ _ _ _ _ Hact)
    as (before & content & _ & _ & _ & Hdig).
  rewrite Hdig, list_byte_of_string_length in HN.
  destruct (Sprintf_x_spec (Sum_of md5_Sum sha256_Sum false content))
    as [Hlen _].
  pose proof (filename_checksum_sha256_short fn) as Hshort.
  unfold Sum_of in *. specialize (Hsum content).
  destruct (sha256_Sum content); [now elim Hsum|].
  cbn [List.length] in Hlen. lia.
Qed.

Lemma sha256_verified_filename_never_ok_witness :
  fst (checkFile sample_md5_Sum sample_sha256_Sum (open_as sha_tagged_file)
         (flags false false false false true) false
         "e3b0c44298fc1c149afbf4c8996fb92427ae41e4649b934ca495991b7852b855"
         fresh_world)
  <> Ok.
Proof.
  apply (sha256_verified_filename_never_ok
           sample_md5_Sum sample_sha256_Sum (open_as sha_tagged_file)
           (flags false false false false true)
           "e3b0c44298fc1c149afbf4c8996fb92427ae41e4649b934ca495991b7852b855"
           fresh_world eq_refl).
  intros content. discriminate.
Defined.

Example sha256_verified_filename_demotes_current_file :
  fst (checkFile sample_md5_Sum sample_sha256_Sum (open_as sha_tagged_file)
         (flags false false false false true) false
         "e3b0c44298fc1c149afbf4c8996fb92427ae41e4649b934ca495991b7852b855"
         fresh_world)
  = FilenameNotMatched.
Proof. vm_compute. reflexivity. Qed.

(** ** Files that are up to date *)

Lemma mtime_of_in_range (fi : ModTime) :
  is_uint64 (s (mtime_of fi)) /\ is_uint32 (ns (mtime_of fi)).
Proof.
  unfold mtime_of, is_uint64, is_uint32, wrap64, wrap32. cbn [s ns].
  split; apply Z.mod_pos_bound; reflexivity.
Qed.

Lemma stamp_of_padded_text
  (width1 width2 : nat) (t : fileTimestamp) (bMd5 : bool) (f : File)
  (w : World) :
  is_uint64 (s t) ->
  is_uint32 (ns t) ->
  xattr_FGet f (stamp_xattr bMd5)
  = Success (list_byte_of_string (padded_text width1 width2 t)) ->
  stamp bMd5 (fst (fst (getStoredAttr bMd5 f w))) = t.
Proof.
  intros Hs Hns Hx. rewrite getStoredAttr_stamp, Hx.
  unfold seconds_text, nanos_text.
  rewrite string_of_list_byte_of_string. unfold padded_text.
  change ("." ++ fmt.Sprintf_0d width2 (ns t))%string
    with (String "." (fmt.Sprintf_0d width2 (ns t))).
  rewrite Cut_after_digits by (now apply Sprintf_0d_spells).
  rewrite !ParseUint_Sprintf_0d by (auto; assumption).
  cbn [fst]. unfold wrap32. rewrite Z.mod_small by exact Hns.
  now destruct t.
Qed.

(** X12. The parser of the timestamp attribute does not depend on the
    padding: the decimal seconds and nanoseconds of a timestamp, each padded
    with zeros to any width or not at all, and joined by ['.'], load as that
    timestamp. *)
Theorem timestamp_text_loads_with_any_padding
  (width1 width2 : nat) (t : fileTimestamp) (bMd5 : bool) (f : File)
  (w : World) :
  is_uint64 (s t) ->
  is_uint32 (ns t) ->
  xattr_FGet f (stamp_xattr bMd5)
  = Success
      (list_byte_of_string
         (fmt.Sprintf_0d width1 (s t) ++ "." ++ fmt.Sprintf_0d width2 (ns t))) ->
  stamp bMd5 (fst (fst (getStoredAttr bMd5 f w))) = t.
Proof.
  intros Hs Hns Hx.
  exact (stamp_of_padded_text width1 width2 t bMd5 f w Hs Hns Hx).
Qed.

Lemma timestamp_text_loads_with_any_padding_witness :
  stamp false
    (fst (fst (getStoredAttr false
                 (sample_file [(xattrTsSha256, "7.5")] sample_mtime
                    sample_mtime None)
                 fresh_world)))
  = {| s := 7; ns := 5 |}.
Proof.
  apply (timestamp_text_loads_with_any_padding 0 0 {| s := 7; ns := 5 |}
           false).
  - vm_compute. split; [discriminate | reflexivity].
  - vm_compute. split; [discriminate | reflexivity].
  - reflexivity.
Defined.

Lemma getActualAttr_steady_file
  (md5_Sum sha256_Sum : list byte -> list byte)
  (bMd5 : bool) (f : File) (w : World) (before after : ModTime)
  (content : list byte) :
  Stat f (stat_calls w) = Success before ->
  io_Copy f = Success content ->
  Stat f (S (stat_calls w)) = Success after ->
  mtime_of before = mtime_of after ->
  exists actual,
    getActualAttr md5_Sum sha256_Sum bMd5 f w
    = (actual, None, after_hashing w)
    /\ stamp bMd5 actual = mtime_of before
    /\ digest bMd5 actual
       = list_byte_of_string
           (fmt.Sprintf_x (Sum_of md5_Sum sha256_Sum bMd5 content)).
Proof.
  intros H1 Hc H2 He. apply fileTimestamp_eqb_eq in He.
  destruct bMd5; unfold getActualAttr, getActualAttrMd5, getActualAttrSha256,
    getMtime, after_hashing, Sum_of;
    rewrite H1, Hc; cbn [stat_calls tick emit]; rewrite H2;
    cbn [tsMd5 ts set_tsMd5 set_ts]; rewrite He; cbn [negb];
    eexists; repeat split.
Qed.

(** X13. A file that carries the attributes of its present state checks as
    [Ok]: when the digest attribute holds the hexadecimal digest of the
    content (a digest of the algorithm's size), the timestamp attribute
    holds the text of the modification time, and the modification time does
    not move while the content is read, the check without filename
    verification ends in [Ok], counts the file in [ok] and does not call
    [storeAttr]. *)
Theorem current_attributes_check_ok
  (md5_Sum sha256_Sum : list byte -> list byte)
  (os_Open : string -> result File) (g : Globals) (bMd5 : bool)
  (fn : string) (w : World) (f : File) (before after : ModTime)
  (content : list byte) :
  args_remove g = false ->
  gBOnlyFilename g = false ->
  gBCheckFilename g = false ->
  os_Open fn = Success f ->
  Stat f (stat_calls w) = Success before ->
  io_Copy f = Success content ->
  Stat f (S (stat_calls w)) = Success after ->
  mtime_of before = mtime_of after ->
  (2 * List.length (Sum_of md5_Sum sha256_Sum bMd5 content))%nat
  = digest_width bMd5 ->
  xattr_FGet f (digest_xattr bMd5)
  = Success (list_byte_of_string
               (fmt.Sprintf_x (Sum_of md5_Sum sha256_Sum bMd5 content))) ->
  xattr_FGet f (stamp_xattr bMd5)
  = Success (list_byte_of_string
               (fileTimestamp_prettyPrint (mtime_of before))) ->
  let c := checkFile md5_Sum sha256_Sum os_Open g bMd5 fn w in
  fst c = Ok
  /\ stats (snd c) = incr c_ok (incr c_total (stats w))
  /\ filter is_store (new_events w (snd c)) = [].
Proof.
  intros Hrm Honly Hchk Hopen H1 Hc H2 He Hlen Hd Ht. cbv zeta.
  destruct (getActualAttr_steady_file md5_Sum sha256_Sum bMd5 f
              (emit_reads bMd5 (count c_total w)) before after content
              H1 Hc H2 He) as (actual & Hact & Hstamp & Hdig).
  assert (ET : timesMatch bMd5
                 (fst (fst (getStoredAttr bMd5 f (count c_total w)))) actual
               = true).
  { rewrite timesMatch_stamp. apply fileTimestamp_eqb_eq. rewrite Hstamp.
    destruct (mtime_of_in_range before) as [Hs Hns].
    exact (stamp_of_padded_text 10 9 (mtime_of before) bMd5 f _ Hs Hns Ht). }
  assert (ED : checksumsMatch bMd5
                 (fst (fst (getStoredAttr bMd5 f (count c_total w)))) actual
               = true).
  { rewrite checksumsMatch_digest. apply bytes_Equal_eq.
    rewrite getStoredAttr_digest, Hdig. unfold stored_digest_of.
    rewrite Hd.
    set (val := list_byte_of_string _).
    assert (Hv : List.length val = digest_width bMd5).
    { unfold val. rewrite list_byte_of_string_length.
      destruct (Sprintf_x_spec (Sum_of md5_Sum sha256_Sum bMd5 content))
        as [-> _]. exact Hlen. }
    rewrite <- Hv, firstn_all, Nat.sub_diag. apply app_nil_r. }
  unfold checkFile.
  rewrite Hopen, Hrm, getStoredAttr_eta, Honly, Hact, ET, ED, Hchk.
  cbn [andb]. destruct (args_q g); new_events_of; repeat split.
Qed.

Lemma current_attributes_check_ok_witness :
  let c := checkFile sample_md5_Sum sample_sha256_Sum
             (open_as tagged_md5_file)
             (flags false false false false false) true "a.txt"
             fresh_world in
  fst c = Ok
  /\ stats (snd c) = incr c_ok (incr c_total (stats fresh_world))
  /\ filter is_store (new_events fresh_world (snd c)) = [].
Proof.
  exact (current_attributes_check_ok
           sample_md5_Sum sample_sha256_Sum (open_as tagged_md5_file)
           (flags false false false false false) true "a.txt" fresh_world
           tagged_md5_file sample_mtime sample_mtime []
           eq_refl eq_refl eq_refl eq_refl eq_refl eq_refl eq_refl eq_refl
           eq_refl eq_refl eq_refl).
Defined.

(** ** Where the filename checksum is found *)

Lemma match_here_Some (n k : nat) (str m : string) :
  regexp.match_here (hex_times n) k str = Some m ->
  String.length m = k /\ all_hex m = true
  /\ occurs_after EmptyString m str.
Proof.
  revert str m; induction k as [|k IH]; intros str m;
    cbn [regexp.match_here].
  - intros [= <-]. repeat split. now exists str.
  - destruct str as [|c str]; [discriminate|].
    rewrite in_class_hex. destruct (is_hex c) eqn:Hc; [|discriminate].
    destruct (regexp.match_here (hex_times n) k str) as [m'|] eqn:E;
      [|discriminate].
    intros [= <-]. destruct (IH _ _ E) as (Hl & Hh & post & Hp).
    cbn [String.length all_hex]. rewrite Hc, Hh, Hl. repeat split.
    exists post. cbn in Hp |- *. now rewrite Hp.
Qed.

Lemma match_here_None (n k : nat) (str : string) :
  regexp.match_here (hex_times n) k str = None ->
  ~ window_after k EmptyString str.
Proof.
  revert str; induction k as [|k IH]; intros str;
    cbn [regexp.match_here]; [discriminate|].
  intros H (x & (post & Hp) & Hl & Hh). cbn in Hp.
  destruct x as [|c x]; [discriminate Hl|].
  cbn [String.length all_hex] in Hl, Hh. apply andb_true_iff in Hh.
  destruct Hh as [Hc Hh]. subst str. cbn [append] in H.
  rewrite in_class_hex, Hc in H.
  destruct (regexp.match_here (hex_times n) k (x ++ post)) eqn:E;
    [discriminate|].
  apply (IH _ E). exists x. repeat split; [now exists post | lia | exact Hh].
Qed.

Lemma window_after_uncons (n : nat) (c : ascii) (pre str : string) :
  window_after n pre (String c str) ->
  (pre = EmptyString /\ window_after n EmptyString (String c str))
  \/ exists pre', pre = String c pre' /\ window_after n pre' str.
Proof.
  destruct pre as [|c' pre]; [now left|]. right.
  destruct H as (x & (post & Hp) & H). cbn in Hp.
  injection Hp as <- Hp. exists pre. split; [reflexivity|].
  exists x. split; [now exists post | exact H].
Qed.

(** The leftmost run of [n] digits, [n] positive. *)
Lemma FindString_leftmost (n : nat) (str : string) :
  (0 < n)%nat ->
  let r := regexp.FindString (hex_times n) str in
  (r = EmptyString /\ forall pre, ~ window_after n pre str)
  \/ (String.length r = n /\ all_hex r = true
      /\ exists pre,
           occurs_after pre r str
           /\ forall pre', window_after n pre' str ->
                           (String.length pre <= String.length pre')%nat).
Proof.
  intros Hn. cbv zeta. induction str as [|c str IH];
    cbn [regexp.FindString regexp.reps hex_times].
  - destruct (regexp.match_here (hex_times n) n EmptyString) eqn:E.
    { destruct n; [lia | discriminate E]. }
    left. split; [reflexivity|].
    intros pre (x & (post & Hp) & Hl & _).
    destruct pre; [|discriminate Hp]. destruct x; [|discriminate Hp].
    cbn in Hl. lia.
  - destruct (regexp.match_here (hex_times n) n (String c str)) as [m|] eqn:E.
    + right. destruct (match_here_Some _ _ _ _ E) as (Hl & Hh & Ho).
      repeat split; try assumption.
      exists EmptyString. split; [exact Ho | cbn; lia].
    + apply match_here_None in E.
      cbn [regexp.reps hex_times] in IH.
      destruct IH as [[-> Hno] | (Hl & Hh & pre & Ho & Hleft)].
      * left. split; [reflexivity|]. intros pre Hw.
        destruct (window_after_uncons _ _ _ _ Hw) as [[-> Hw0] | (p & -> & Hw')];
          [exact (E Hw0) | exact (Hno p Hw')].
      * right. repeat split; try assumption.
        exists (String c pre). split.
        { destruct Ho as [post Hp]. exists post. cbn. now rewrite <- Hp. }
        intros pre' Hw.
        destruct (window_after_uncons _ _ _ _ Hw) as [[-> Hw0] | (p & -> & Hw')];
          [now elim (E Hw0)|].
        cbn [String.length]. specialize (Hleft p Hw'). lia.
Qed.

(** X14. With width 32 the extractor returns either the empty text, and
    then the filename has no 32 consecutive hexadecimal digits anywhere, or
    32 hexadecimal digits that occur in the filename, and then no 32
    consecutive hexadecimal digits start further left. *)
Theorem extracted_checksum_is_leftmost_window (fn : string) :
  let r := extractChecksumFromFilename true fn 32 in
  (r = EmptyString /\ forall pre, ~ window_after 32 pre fn)
  \/ (String.length r = 32%nat /\ all_hex r = true
      /\ exists pre,
           occurs_after pre r fn
           /\ forall pre', window_after 32 pre' fn ->
                           (String.length pre <= String.length pre')%nat).
Proof.
  unfold extractChecksumFromFilename. cbn [Z.eqb Pos.eqb].
  change regexp.hex32 with (hex_times 32).
  apply FindString_leftmost. lia.
Qed.

(** ** Directories *)

Lemma strip_trailing_no_sep (path : string) :
  filepath.has_sep path = false -> filepath.strip_trailing path = path.
Proof.
  induction path as [|c path IH]; [reflexivity|].
  cbn [filepath.has_sep filepath.strip_trailing]. intros H.
  apply orb_false_iff in H. destruct H as [Hc H].
  rewrite (IH H), Hc. reflexivity.
Qed.

Lemma strip_trailing_before (dir name : string) :
  name <> EmptyString ->
  filepath.has_sep name = false ->
  filepath.strip_trailing (dir ++ name) = (dir ++ name)%string.
Proof.
  intros Hne Hs. induction dir as [|c dir IH].
  - now apply strip_trailing_no_sep.
  - cbn [append filepath.strip_trailing]. rewrite IH.
    destruct (dir ++ name)%string eqn:E.
    + destruct dir; [now elim Hne | discriminate E].
    + cbn [String.eqb]. now rewrite andb_false_r.
Qed.

Lemma last_element_no_sep (path : string) :
  filepath.has_sep path = false -> filepath.last_element path = path.
Proof.
  destruct path as [|c path]; [reflexivity|].
  cbn [filepath.has_sep filepath.last_element]. intros H.
  apply orb_false_iff in H. destruct H as [Hc H]. now rewrite H, Hc.
Qed.

Lemma has_sep_app (a b : string) :
  filepath.has_sep (a ++ b) = filepath.has_sep a || filepath.has_sep b.
Proof.
  induction a as [|c a IH]; [reflexivity|].
  cbn [append filepath.has_sep]. now rewrite IH, orb_assoc.
Qed.

Lemma last_element_after_sep (dir name : string) :
  filepath.has_sep name = false ->
  filepath.last_element (dir ++ String "/" name) = name.
Proof.
  intros Hs. induction dir as [|c dir IH].
  - cbn [append filepath.last_element]. now rewrite Hs.
  - cbn [append filepath.last_element].
    rewrite has_sep_app. cbn [filepath.has_sep].
    change (filepath.is_sep "/") with true.
    rewrite orb_true_r. exact IH.
Qed.

Lemma Base_of_path (dir name : string) :
  name <> EmptyString ->
  filepath.has_sep name = false ->
  filepath.Base (dir ++ String "/" name) = name
  /\ filepath.Base name = name.
Proof.
  intros Hne Hs. unfold filepath.Base. split.
  - destruct (String.eqb_spec (dir ++ String "/" name) "") as [E|_].
    { destruct dir; discriminate E. }
    change (dir ++ String "/" name)%string
      with (dir ++ (String "/" EmptyString ++ name))%string.
    rewrite <- append_assoc, strip_trailing_before by assumption.
    rewrite append_assoc. cbn [append].
    rewrite last_element_after_sep by exact Hs.
    destruct (String.eqb_spec name "") as [E|_]; [now elim Hne | reflexivity].
  - destruct (String.eqb_spec name "") as [E|_]; [now elim Hne|].
    rewrite strip_trailing_no_sep, last_element_no_sep by exact Hs.
    destruct (String.eqb_spec name "") as [E|_]; [now elim Hne | reflexivity].
Qed.

(** X15. [checkFilename] looks at the last element of the path only:
    hexadecimal digits in the names of the directories above the file do
    not count. *)
Theorem checkFilename_ignores_directories
  (bMd5 : bool) (dir name : string) (actual : fileAttr) :
  name <> EmptyString ->
  filepath.has_sep name = false ->
  checkFilename bMd5 (dir ++ "/" ++ name) actual
  = checkFilename bMd5 name actual.
Proof.
  intros Hne Hs. unfold checkFilename.
  change (dir ++ "/" ++ name)%string with (dir ++ String "/" name)%string.
  destruct (Base_of_path dir name Hne Hs) as [-> ->]. reflexivity.
Qed.

Lemma checkFilename_ignores_directories_witness :
  checkFilename true
    ("/srv/d41d8cd98f00b204e9800998ecf8427e" ++ "/" ++ "photo.jpg")
    (fst (fst (getStoredAttr true tagged_md5_file fresh_world)))
  = checkFilename true "photo.jpg"
      (fst (fst (getStoredAttr true tagged_md5_file fresh_world))).
Proof.
  apply (checkFilename_ignores_directories true
           "/srv/d41d8cd98f00b204e9800998ecf8427e" "photo.jpg").
  - discriminate.
  - reflexivity.
Defined.

Example directory_digest_does_not_match :
  checkFilename true "/srv/d41d8cd98f00b204e9800998ecf8427e/photo.jpg"
    (fst (fst (getStoredAttr true tagged_md5_file fresh_world)))
  = false.
Proof. vm_compute. reflexivity. Qed.

Lemma verdict_is_counted_witness :
  let c := checkFile sample_md5_Sum sample_sha256_Sum
             (open_as untagged_file) (flags false false false false false)
             true "a.txt" fresh_world in
  get c_newfile (stats (snd c))
  = get c_newfile
      (match counter_of (fst c) with
       | Some k' => incr k' (incr c_total (stats fresh_world))
       | None => incr c_total (stats fresh_world)
       end).
Proof.
  apply (verdict_is_counted sample_md5_Sum sample_sha256_Sum
           (open_as untagged_file) (flags false false false false false)
           true "a.txt" fresh_world c_newfile).
  discriminate.
Defined.
